(** * Multi-source property resolution of the [chemicals] library

    A shallow embedding of [chemicals/dipole.py] and of the lookup functions
    of [chemicals/safety.py], with the properties their specification
    states about them.

    The scalar Python values (table cells, arguments) are embedded as the
    inductive [pyval]; numbers read from the bundled tables are binary64
    floats, here Rocq's primitive floats, so that the truth value of a
    number ([0.0] is false, everything else, NaN included, is true) and the
    estimator formulas are the ones Python computes.  A function that can
    raise returns a [result]. *)

From Stdlib Require Import Floats ZArith.
From stdpp Require Import gmap strings list fin_maps.

Set Warnings "-inexact-float".

Local Open Scope string_scope.

(** ** Python scalars *)

Inductive pyval : Type :=
| PNone
| PBool (b : bool)
| PInt (z : Z)
| PFloat (f : float)
| PStr (s : string).

(** [bool(v)]: what [if v:] and [not v] test. *)
Definition truthy (v : pyval) : bool :=
  match v with
  | PNone => false
  | PBool b => b
  | PInt z => negb (z =? 0)%Z
  | PFloat f => negb (f =? 0)%float
  | PStr s => negb (String.eqb s "")
  end.

(** [v is not None]. *)
Definition is_not_None (v : pyval) : bool :=
  match v with PNone => false | _ => true end.

(** [v == s] for a string constant [s]: a value that is not a string is
    never equal to one. *)
Definition py_eq_str (v : pyval) (s : string) : bool :=
  match v with PStr s' => String.eqb s' s | _ => false end.

(** ** Exceptions and results *)

(** [ValueError method allowed] stands for
    [ValueError('Invalid method: %s, allowed methods are %s' % (method, allowed))]:
    the two values formatted into the message are kept, not the text. *)
Inductive exn : Type :=
| ValueError (method : pyval) (allowed : list string)
| KeyError
| TypeError
| ZeroDivisionError
| OverflowError.

Inductive result (A : Type) : Type :=
| Ok (a : A)
| Raise (e : exn).
Arguments Ok {A} a.
Arguments Raise {A} e.

(** An exception ends the computation; [x ← r; k] sequences two steps. *)
#[global] Instance result_bind : MBind result :=
  fun A B k r => match r with Ok a => k a | Raise e => Raise e end.
#[global] Instance result_ret : MRet result := fun A a => Ok a.

(** ** Float arithmetic as Python does it *)

(** [float(z)] for an [int]: rounded to nearest even, [OverflowError] when
    the result is not finite. *)
Definition float_of_int (z : Z) : result float :=
  let f := SF2Prim (binary_normalize prec emax z 0 false) in
  if is_infinity f then Raise OverflowError else Ok f.

(** The float an operand of [*] or [/] with a float stands for. *)
Definition to_float (v : pyval) : result float :=
  match v with
  | PFloat f => Ok f
  | PInt z => float_of_int z
  | PBool b => Ok (if b then 1 else 0)%float
  | _ => Raise TypeError
  end.

(** [a / b] on floats. *)
Definition fdiv (a b : float) : result float :=
  if (b =? 0)%float then Raise ZeroDivisionError else Ok (a / b)%float.

(** ** Dictionaries in insertion order *)

(** A Python [dict] whose order is observed (the source registries, whose
    order is the priority order, and the JSON object of exposure limits):
    the list of its items, keys distinct. *)
Fixpoint dict_get {V : Type} (d : list (string * V)) (k : string) : option V :=
  match d with
  | [] => None
  | (k', v) :: rest => if String.eqb k' k then Some v else dict_get rest k
  end.

(** [list(d)]: the keys. *)
Definition dict_keys {V : Type} (d : list (string * V)) : list string := d.*1.

(** ** Table store *)

(** A table is a data frame: an index of chemical identifiers, each with a
    row of named cells. *)
Abbreviation row := (gmap string pyval).
Abbreviation table := (gmap string (gmap string pyval)).
Abbreviation registry := (list (string * gmap string (gmap string pyval))).

(** Modelled from the spec: [get_row] of the Table Store (section 4.1), the
    exact-key point lookup; [chemicals/data_reader.py], which reads the
    tables, is missing. *)
Definition get_row (t : table) (identifier : string) : option row :=
  t !! identifier.

(** Modelled from the spec: [has_field] of the Table Store, true iff the row
    exists and the named field is present and not null. *)
Definition has_field (r : option row) (field_name : string) : bool :=
  match r with
  | Some cells =>
      match cells !! field_name with
      | Some v => is_not_None v
      | None => false
      end
  | None => false
  end.

(** Modelled from the spec: [get_field] of the Table Store, which composes
    the two above; absent is Python's [None]. *)
Definition get_field (t : table) (identifier field_name : string) : pyval :=
  let r := get_row t identifier in
  if has_field r field_name
  then default PNone (r ≫= (.!! field_name))
  else PNone.

(** ** Multi-source resolver *)

(** Modelled from the spec: [list_available_methods] (section 4.2), the
    names of the sources, in priority order, whose table has the field
    present and non-null for the identifier;
    [data_reader.list_available_methods_from_df_dict] is missing. *)
Fixpoint list_available_methods_from_df_dict
    (df_dict : registry) (index key : string) : list string :=
  match df_dict with
  | [] => []
  | (method, df) :: rest =>
      if has_field (get_row df index) key
      then method :: list_available_methods_from_df_dict rest index key
      else list_available_methods_from_df_dict rest index key
  end.

(** Modelled from the spec: [retrieve_any] (section 4.2), the field value
    from the first source, in priority order, that has non-null data for
    the identifier, and [None] when no source has;
    [data_reader.retrieve_any_from_df_dict] is missing. *)
Fixpoint retrieve_any_from_df_dict
    (df_dict : registry) (index key : string) : pyval :=
  match df_dict with
  | [] => PNone
  | (_, df) :: rest =>
      if has_field (get_row df index) key
      then get_field df index key
      else retrieve_any_from_df_dict rest index key
  end.

(** Modelled from the spec: [retrieve_from] (section 4.2), the named
    source looked up directly: InvalidMethod, with the registered names in
    the message, when the name is not a key of the registry, otherwise the
    field value or [None]; [data_reader.retrieve_from_df_dict] is
    missing. *)
Definition retrieve_from_df_dict
    (df_dict : registry) (index key : string) (method : pyval) : result pyval :=
  match method with
  | PStr name =>
      match dict_get df_dict name with
      | Some df => Ok (get_field df index key)
      | None => Raise (ValueError method (dict_keys df_dict))
      end
  | _ => Raise (ValueError method (dict_keys df_dict))
  end.

(** * chemicals/dipole.py *)

Module Dipole.

Definition CCCBDB : string := "CCCBDB".
Definition MULLER : string := "MULLER".
Definition POLING : string := "POLING".
Definition dipole_methods : list string := [CCCBDB; MULLER; POLING].

(** The three tables [_load_dipole_data] reads with [data_source]: the
    CSV files are data, so the tables are the input. *)
Record dipole_data : Type := {
  dipole_data_CCDB : table;
  dipole_data_Muller : table;
  dipole_data_Poling : table
}.

(** The registry [_load_dipole_data] builds. *)
Definition dipole_sources (g : dipole_data) : registry :=
  [ (CCCBDB, dipole_data_CCDB g);
    (MULLER, dipole_data_Muller g);
    (POLING, dipole_data_Poling g) ].

(** What [dipole_moment] returns: the list of methods when [get_methods]
    is set, the dipole moment (or [None]) otherwise. *)
Inductive dipole_result : Type :=
| Methods (methods : list string)
| Value (dipole : pyval).

(** [dipole_moment(CASRN, get_methods=False, method=None)] (dipole.py, lines
    65-138).  The tables are (re)loaded on entry, which is the argument
    [g]. *)
Definition dipole_moment (g : dipole_data)
    (CASRN : string) (get_methods : bool) (method : pyval) : result dipole_result :=
  if get_methods then
    Ok (Methods (list_available_methods_from_df_dict (dipole_sources g) CASRN "Dipole"))
  else if truthy method then
    v ← retrieve_from_df_dict (dipole_sources g) CASRN "Dipole" method; Ok (Value v)
  else
    Ok (Value (retrieve_any_from_df_dict (dipole_sources g) CASRN "Dipole")).

End Dipole.

(** * chemicals/safety.py *)

Module Safety.

(** ** Data *)

Definition NTP_codes : list (Z * string) :=
  [ (1, "Known"); (2, "Reasonably Anticipated") ]%Z.

Definition IARC_codes : list (Z * string) :=
  [ (1, "Carcinogenic to humans (1)");
    (11, "Probably carcinogenic to humans (2A)");
    (12, "Possibly carcinogenic to humans (2B)");
    (3, "Not classifiable as to its carcinogenicity to humans (3)");
    (4, "Probably not carcinogenic to humans (4)") ]%Z.

Definition IEC : string := "IEC 60079-20-1 (2010)".
Definition NFPA : string := "NFPA 497 (2008)".
Definition SERAT : string := "Serat DIPPR (2017)".

Definition SUZUKI : string := "Suzuki (1994)".
Definition CROWLLOUVAR : string := "Crowl and Louvar (2001)".

(** A value of [Ontario_exposure_limits_dict]: the JSON object written for
    each CASRN with the keys ["Name"], ["TWA (ppm)"], ["TWA (mg/m^3)"],
    ["STEL (ppm)"], ["STEL (mg/m^3)"], ["Ceiling (ppm)"],
    ["Ceiling (mg/m^3)"], ["Skin"] and ["MW"]; a limit is a number or
    null. *)
Record exposure_limits : Type := {
  ol_Name : pyval;
  ol_TWA_ppm : pyval;
  ol_TWA_mgm3 : pyval;
  ol_STEL_ppm : pyval;
  ol_STEL_mgm3 : pyval;
  ol_Ceiling_ppm : pyval;
  ol_Ceiling_mgm3 : pyval;
  ol_Skin : bool;
  ol_MW : pyval
}.

(** The globals [_load_safety_data] sets from the bundled data files: they
    are the input.  A function that starts with
    [if not _safety_data_loaded: _load_safety_data()] reads them loaded,
    which is the argument [g] of its body below.  Whether the globals are
    bound when a function is called is the state of the module, in
    [Loading]: there each function is the call [Loading.call_TWA], ...,
    of its body, with the load line where the source has it. *)
Record safety_data : Type := {
  Ontario_exposure_limits_dict : list (string * exposure_limits);
  NFPA_2008_data : table;
  IEC_2010_data : table;
  DIPPR_SERAT_data : table;
  NTP_data : table;
  IARC_data : table
}.

Definition Tflash_sources (g : safety_data) : registry :=
  [ (IEC, IEC_2010_data g); (NFPA, NFPA_2008_data g); (SERAT, DIPPR_SERAT_data g) ].

Definition Tautoignition_sources (g : safety_data) : registry :=
  [ (IEC, IEC_2010_data g); (NFPA, NFPA_2008_data g) ].

(** [Tautoignition_sources.copy()], twice. *)
Definition LFL_sources (g : safety_data) : registry := Tautoignition_sources g.
Definition UFL_sources (g : safety_data) : registry := Tautoignition_sources g.

(** [index in df.index] and [df.at[index, column]] of a data frame. *)
Definition in_index (index : string) (df : table) : bool :=
  match df !! index with Some _ => true | None => false end.

Definition df_at (df : table) (index column : string) : result pyval :=
  match df !! index with
  | Some cells =>
      match cells !! column with
      | Some v => Ok v
      | None => Raise KeyError
      end
  | None => Raise KeyError
  end.

(** [codes[k]] for a dict keyed by small ints: a bool or a float equal to a
    key finds it, as Python's hashing has it. *)
Definition key_matches (k : pyval) (z : Z) : bool :=
  match k with
  | PInt z' => (z' =? z)%Z
  | PBool b => (Z.b2z b =? z)%Z
  | PFloat f =>
      match float_of_int z with Ok f' => (f =? f')%float | Raise _ => false end
  | _ => false
  end.

Fixpoint codes_get (codes : list (Z * string)) (k : pyval) : result string :=
  match codes with
  | [] => Raise KeyError
  | (z, s) :: rest => if key_matches k z then Ok s else codes_get rest k
  end.

(** ** Exposure limits *)

Definition ONTARIO : string := "Ontario Limits".

Definition TWA_all_methods : list string := [ONTARIO].
Definition STEL_all_methods : list string := [ONTARIO].
Definition Ceiling_all_methods : list string := [ONTARIO].
Definition Skin_all_methods : list string := [ONTARIO].

(** [a or b]. *)
Definition py_or (a b : pyval) : pyval := if truthy a then a else b.

Definition TWA_methods (g : safety_data) (CASRN : string) : list string :=
  match dict_get (Ontario_exposure_limits_dict g) CASRN with
  | Some data =>
      if truthy (py_or (ol_TWA_ppm data) (ol_TWA_mgm3 data)) then [ONTARIO] else []
  | None => []
  end.

(** [TWA] (safety.py, lines 403-424), as [STEL] (449-472) and [Ceiling]
    (498-519) below: a limit is returned with its unit, [(value, 'ppm')];
    falling off the end of the function returns [None]. *)
Definition TWA (g : safety_data) (CASRN : string) (method : pyval)
    : result (option (pyval * string)) :=
  if negb (truthy method) || py_eq_str method ONTARIO then
    match dict_get (Ontario_exposure_limits_dict g) CASRN with
    | Some data =>
        let value := ol_TWA_ppm data in
        if truthy value then Ok (Some (value, "ppm")) else
        let value := ol_TWA_mgm3 data in
        if truthy value then Ok (Some (value, "mg/m^3")) else
        Ok None
    | None => Ok None
    end
  else Raise (ValueError method TWA_all_methods).

Definition STEL_methods (g : safety_data) (CASRN : string) : list string :=
  match dict_get (Ontario_exposure_limits_dict g) CASRN with
  | Some data =>
      if truthy (py_or (ol_STEL_ppm data) (ol_STEL_mgm3 data)) then [ONTARIO] else []
  | None => []
  end.

Definition STEL (g : safety_data) (CASRN : string) (method : pyval)
    : result (option (pyval * string)) :=
  if negb (truthy method) || py_eq_str method ONTARIO then
    match dict_get (Ontario_exposure_limits_dict g) CASRN with
    | Some data =>
        let value := ol_STEL_ppm data in
        if truthy value then Ok (Some (value, "ppm")) else
        let value := ol_STEL_mgm3 data in
        if truthy value then Ok (Some (value, "mg/m^3")) else
        Ok None
    | None => Ok None
    end
  else Raise (ValueError method TWA_all_methods).

Definition Ceiling_methods (g : safety_data) (CASRN : string) : list string :=
  match dict_get (Ontario_exposure_limits_dict g) CASRN with
  | Some data =>
      if truthy (py_or (ol_Ceiling_ppm data) (ol_Ceiling_mgm3 data)) then [ONTARIO] else []
  | None => []
  end.

(** The message of [Ceiling] is formatted with
    [list(Ontario_exposure_limits_dict)], the CASRNs of the table (safety.py,
    lines 518-519). *)
Definition Ceiling (g : safety_data) (CASRN : string) (method : pyval)
    : result (option (pyval * string)) :=
  if negb (truthy method) || py_eq_str method ONTARIO then
    match dict_get (Ontario_exposure_limits_dict g) CASRN with
    | Some data =>
        let value := ol_Ceiling_ppm data in
        if truthy value then Ok (Some (value, "ppm")) else
        let value := ol_Ceiling_mgm3 data in
        if truthy value then Ok (Some (value, "mg/m^3")) else
        Ok None
    | None => Ok None
    end
  else Raise (ValueError method (dict_keys (Ontario_exposure_limits_dict g))).

(** [Skin_methods] (safety.py, lines 521-540) is the one lookup without
    the load line: line 540 reads [Ontario_exposure_limits_dict] as it is.
    This is the body, for a table that is bound; the call, which raises
    [NameError] while the table is not, is [Loading.call_Skin_methods], and
    a statement about what [Skin_methods] returns when called is one about
    that call. *)
Definition Skin_methods (g : safety_data) (CASRN : string) : list string :=
  match dict_get (Ontario_exposure_limits_dict g) CASRN with
  | Some _ => [ONTARIO]
  | None => []
  end.

Definition Skin (g : safety_data) (CASRN : string) (method : pyval)
    : result (option bool) :=
  if negb (truthy method) || py_eq_str method ONTARIO then
    match dict_get (Ontario_exposure_limits_dict g) CASRN with
    | Some data => Ok (Some (ol_Skin data))
    | None => Ok None
    end
  else Raise (ValueError method TWA_all_methods).

(** ** Carcinogenicity *)

Definition IARC : string := "International Agency for Research on Cancer".
Definition NTP : string := "National Toxicology Program 13th Report on Carcinogens".
Definition UNLISTED : string := "Unlisted".
Definition COMBINED : string := "Combined".
Definition Carcinogen_all_methods : list string := [IARC; NTP].

Definition Carcinogen_methods (CASRN : string) : list string :=
  Carcinogen_all_methods.

(** What [Carcinogen] returns: the status string for one method, or the
    dict [{source: status}] over all of them. *)
Inductive carcinogen_result : Type :=
| Status (status : string)
| Statuses (by_source : list (string * string)).

Definition IARC_status (g : safety_data) (CASRN : string) : result string :=
  group ← df_at (IARC_data g) CASRN "group"; codes_get IARC_codes group.

Definition NTP_status (g : safety_data) (CASRN : string) : result string :=
  listing ← df_at (NTP_data g) CASRN "Listing"; codes_get NTP_codes listing.

Definition Carcinogen (g : safety_data) (CASRN : string) (method : pyval)
    : result carcinogen_result :=
  if negb (truthy method) then
    iarc ← (if in_index CASRN (IARC_data g) then IARC_status g CASRN else Ok UNLISTED);
    ntp ← (if in_index CASRN (NTP_data g) then NTP_status g CASRN else Ok UNLISTED);
    Ok (Statuses [ (IARC, iarc); (NTP, ntp) ])
  else if py_eq_str method IARC then
    if in_index CASRN (IARC_data g)
    then s ← IARC_status g CASRN; Ok (Status s)
    else Ok (Status UNLISTED)
  else if py_eq_str method NTP then
    if in_index CASRN (NTP_data g)
    then s ← NTP_status g CASRN; Ok (Status s)
    else Ok (Status UNLISTED)
  else Raise (ValueError method Carcinogen_all_methods).

(** ** Flash point and autoignition point *)

Definition T_flash_all_methods : list string := [IEC; NFPA; SERAT].

Definition T_flash_methods (g : safety_data) (CASRN : string) : list string :=
  list_available_methods_from_df_dict (Tflash_sources g) CASRN "T_flash".

Definition T_flash (g : safety_data) (CASRN : string) (method : pyval) : result pyval :=
  if truthy method
  then retrieve_from_df_dict (Tflash_sources g) CASRN "T_flash" method
  else Ok (retrieve_any_from_df_dict (Tflash_sources g) CASRN "T_flash").

Definition T_autoignition_all_methods : list string := [IEC; NFPA].

Definition T_autoignition_methods (g : safety_data) (CASRN : string) : list string :=
  list_available_methods_from_df_dict (Tautoignition_sources g) CASRN "T_autoignition".

Definition T_autoignition (g : safety_data) (CASRN : string) (method : pyval)
    : result pyval :=
  if truthy method
  then retrieve_from_df_dict (Tautoignition_sources g) CASRN "T_autoignition" method
  else Ok (retrieve_any_from_df_dict (Tautoignition_sources g) CASRN "T_autoignition").

(** ** Estimators *)

Local Open Scope float_scope.

(** [Hc/1E6] raises for an operand that is not a number, [-3.42/Hc] for a
    zero one. *)
Definition Suzuki_LFL (Hc : pyval) : result pyval :=
  Hc ← to_float Hc;
  let Hc := Hc / 1e6 in
  q ← fdiv (-3.42) Hc;
  let LFL := q + 0.569 * Hc + 0.0538 * Hc * Hc + 1.80 in
  Ok (PFloat (LFL / 100)).

Definition Suzuki_UFL (Hc : pyval) : result pyval :=
  Hc ← to_float Hc;
  let Hc := Hc / 1e6 in
  let UFL := 6.3 * Hc + 0.567 * Hc * Hc + 23.5 in
  Ok (PFloat (UFL / 100)).

(** The dict of atom counts, or [None] when the caller gave none. *)
Abbreviation atoms_arg := (option (gmap string pyval)).

(** [nC], [nH] and [nO] start as the int [0]; ['C' in atoms] raises for
    [None]; the products raise for a count that is not a number and the
    quotient for a zero denominator. *)
Definition Crowl_Louvar_LFL (atoms : atoms_arg) : result pyval :=
  match atoms with
  | None => Raise TypeError
  | Some atoms =>
      match atoms !! "C"%string with
      | Some c =>
          if truthy c then
            nC ← to_float c;
            nH ← to_float (default (PInt 0) (atoms !! "H"%string));
            nO ← to_float (default (PInt 0) (atoms !! "O"%string));
            q ← fdiv 0.55 (4.76 * nC + 1.19 * nH - 2.38 * nO + 1);
            Ok (PFloat q)
          else Ok PNone
      | None => Ok PNone
      end
  end.

Definition Crowl_Louvar_UFL (atoms : atoms_arg) : result pyval :=
  match atoms with
  | None => Raise TypeError
  | Some atoms =>
      match atoms !! "C"%string with
      | Some c =>
          if truthy c then
            nC ← to_float c;
            nH ← to_float (default (PInt 0) (atoms !! "H"%string));
            nO ← to_float (default (PInt 0) (atoms !! "O"%string));
            q ← fdiv 3.5 (4.76 * nC + 1.19 * nH - 2.38 * nO + 1);
            Ok (PFloat q)
          else Ok PNone
      | None => Ok PNone
      end
  end.

Local Close Scope float_scope.

(** [if atoms:] and [atoms is not None]. *)
Definition atoms_truthy (atoms : atoms_arg) : bool :=
  match atoms with
  | Some a => negb (bool_decide (size a = 0))
  | None => false
  end.

Definition atoms_is_not_None (atoms : atoms_arg) : bool :=
  match atoms with Some _ => true | None => false end.

(** ** Flammability limits *)

Definition LFL_all_methods : list string := [IEC; NFPA; SUZUKI; CROWLLOUVAR].

Definition LFL_methods (g : safety_data)
    (Hc : pyval) (atoms : atoms_arg) (CASRN : string) : list string :=
  let methods := list_available_methods_from_df_dict (LFL_sources g) CASRN "LFL" in
  let methods := if is_not_None Hc then (methods ++ [SUZUKI])%list else methods in
  let methods := if atoms_is_not_None atoms then (methods ++ [CROWLLOUVAR])%list else methods in
  methods.

Definition LFL (g : safety_data)
    (Hc : pyval) (atoms : atoms_arg) (CASRN : string) (method : pyval) : result pyval :=
  if negb (truthy method) then
    let LFL := retrieve_any_from_df_dict (LFL_sources g) CASRN "LFL" in
    if negb (truthy LFL) then
      if truthy Hc then Suzuki_LFL Hc
      else if atoms_truthy atoms then Crowl_Louvar_LFL atoms
      else Ok LFL
    else Ok LFL
  else if py_eq_str method SUZUKI then Suzuki_LFL Hc
  else if py_eq_str method CROWLLOUVAR then Crowl_Louvar_LFL atoms
  else retrieve_from_df_dict (LFL_sources g) CASRN "LFL" method.

Definition UFL_all_methods : list string := [IEC; NFPA; SUZUKI; CROWLLOUVAR].

Definition UFL_methods (g : safety_data)
    (Hc : pyval) (atoms : atoms_arg) (CASRN : string) : list string :=
  let methods := list_available_methods_from_df_dict (UFL_sources g) CASRN "UFL" in
  let methods := if is_not_None Hc then (methods ++ [SUZUKI])%list else methods in
  let methods := if atoms_is_not_None atoms then (methods ++ [CROWLLOUVAR])%list else methods in
  methods.

Definition UFL (g : safety_data)
    (Hc : pyval) (atoms : atoms_arg) (CASRN : string) (method : pyval) : result pyval :=
  if negb (truthy method) then
    let UFL := retrieve_any_from_df_dict (UFL_sources g) CASRN "UFL" in
    if negb (truthy UFL) then
      if is_not_None Hc then Suzuki_UFL Hc
      else if atoms_is_not_None atoms then Crowl_Louvar_UFL atoms
      else Ok UFL
    else Ok UFL
  else if py_eq_str method SUZUKI then Suzuki_UFL Hc
  else if py_eq_str method CROWLLOUVAR then Crowl_Louvar_UFL atoms
  else retrieve_from_df_dict (UFL_sources g) CASRN "UFL" method.

(** ** Mixtures *)

(** [fire_mixing(ys, FLs)] (safety.py, lines 1041-1052), for lists of
    floats: the quotients [yi/FLi] of the pairs [zip] gives, computed in
    order, the first zero limit raising; [sum] adds them to the int [0]
    from left to right; the inverse raises for a zero sum. *)
Fixpoint fire_mixing_terms (ys FLs : list float) : result (list float) :=
  match ys, FLs with
  | yi :: ys, FLi :: FLs =>
      q ← fdiv yi FLi; qs ← fire_mixing_terms ys FLs; Ok (q :: qs)
  | _, _ => Ok []
  end.

Definition py_sum (xs : list float) : float :=
  fold_left PrimFloat.add xs 0%float.

Definition fire_mixing (ys FLs : list float) : result float :=
  terms ← fire_mixing_terms ys FLs; fdiv 1 (py_sum terms).

End Safety.

Import Dipole Safety.

(** * Sample data *)

(** Small tables on which the statements below are evaluated. *)
Module Samples.

Definition cell (column : string) (v : pyval) : gmap string pyval :=
  {[ column := v ]}.

(** Ethanol in the three dipole tables. *)
Definition ethanol_dipoles : dipole_data := {|
  dipole_data_CCDB := {[ "64-17-5" := cell "Dipole" (PFloat 1.44) ]};
  dipole_data_Muller := {[ "64-17-5" := cell "Dipole" (PFloat 1.66) ]};
  dipole_data_Poling := {[ "64-17-5" := cell "Dipole" (PFloat 1.7) ]}
|}.

(** Ethanol only in the last of the three dipole tables. *)
Definition ethanol_poling_only : dipole_data := {|
  dipole_data_CCDB := ∅;
  dipole_data_Muller := {[ "64-17-5" := cell "Dipole" PNone ]};
  dipole_data_Poling := {[ "64-17-5" := cell "Dipole" (PFloat 1.7) ]}
|}.

Definition no_limits : exposure_limits := {|
  ol_Name := PStr "";
  ol_TWA_ppm := PNone; ol_TWA_mgm3 := PNone;
  ol_STEL_ppm := PNone; ol_STEL_mgm3 := PNone;
  ol_Ceiling_ppm := PNone; ol_Ceiling_mgm3 := PNone;
  ol_Skin := false;
  ol_MW := PNone
|}.

(** Furfuryl alcohol, with the limit of the docstring of [TWA]. *)
Definition furfuryl_alcohol : exposure_limits := {|
  ol_Name := PStr "Furfuryl alcohol [98-00-0]";
  ol_TWA_ppm := PFloat 10; ol_TWA_mgm3 := PNone;
  ol_STEL_ppm := PFloat 15; ol_STEL_mgm3 := PNone;
  ol_Ceiling_ppm := PNone; ol_Ceiling_mgm3 := PNone;
  ol_Skin := true;
  ol_MW := PFloat 98.1
|}.

(** A row whose limits are all stored as zero. *)
Definition zero_limits : exposure_limits := {|
  ol_Name := PStr "zero";
  ol_TWA_ppm := PFloat 0; ol_TWA_mgm3 := PFloat 0;
  ol_STEL_ppm := PFloat 0; ol_STEL_mgm3 := PNone;
  ol_Ceiling_ppm := PNone; ol_Ceiling_mgm3 := PFloat 0;
  ol_Skin := false;
  ol_MW := PNone
|}.

Definition no_data : safety_data := {|
  Ontario_exposure_limits_dict := [];
  NFPA_2008_data := ∅;
  IEC_2010_data := ∅;
  DIPPR_SERAT_data := ∅;
  NTP_data := ∅;
  IARC_data := ∅
|}.

(** Methane and ethanol in the fire tables, amitrole in the carcinogen
    tables, two chemicals in the exposure limits. *)
Definition some_data : safety_data := {|
  Ontario_exposure_limits_dict :=
    [ ("98-00-0", furfuryl_alcohol); ("75-07-0", no_limits) ];
  NFPA_2008_data :=
    {[ "74-82-8" := {[ "LFL" := PFloat 0.05; "UFL" := PFloat 0.15 ]};
       "64-17-5" := {[ "T_flash" := PFloat 286.15 ]} ]};
  IEC_2010_data :=
    {[ "74-82-8" := {[ "LFL" := PFloat 0.044; "UFL" := PFloat 0.17 ]};
       "64-17-5" := {[ "T_flash" := PFloat 285.15 ]} ]};
  DIPPR_SERAT_data := ∅;
  NTP_data := {[ "61-82-5" := cell "Listing" (PInt 2) ]};
  IARC_data := {[ "61-82-5" := cell "group" (PInt 3) ]}
|}.

(** A chemical whose flammability limits are tabulated as [0.0] in the
    first source and as positive numbers in the second. *)
Definition zero_limit_data : safety_data := {|
  Ontario_exposure_limits_dict := [ ("0-00-0", zero_limits) ];
  NFPA_2008_data := {[ "0-00-0" := {[ "LFL" := PFloat 0.05; "UFL" := PFloat 0.15 ]} ]};
  IEC_2010_data := {[ "0-00-0" := {[ "LFL" := PFloat 0; "UFL" := PFloat 0 ]} ]};
  DIPPR_SERAT_data := ∅;
  NTP_data := ∅;
  IARC_data := ∅
|}.

Definition methane_Hc : pyval := PFloat (-890590).
Definition methane_atoms : atoms_arg := Some {[ "C" := PInt 1; "H" := PInt 4 ]}.

End Samples.

(** * The resolver *)


(** An identifier that no table lists. *)
Definition in_no_safety_source (g : safety_data) (CASRN : string) : Prop :=
  dict_get (Ontario_exposure_limits_dict g) CASRN = None
  ∧ NFPA_2008_data g !! CASRN = None
  ∧ IEC_2010_data g !! CASRN = None
  ∧ DIPPR_SERAT_data g !! CASRN = None
  ∧ NTP_data g !! CASRN = None
  ∧ IARC_data g !! CASRN = None.

Definition in_no_dipole_source (g : dipole_data) (CASRN : string) : Prop :=
  dipole_data_CCDB g !! CASRN = None
  ∧ dipole_data_Muller g !! CASRN = None
  ∧ dipole_data_Poling g !! CASRN = None.

(** A number that is zero, and a stored limit that is zero or null. *)
Definition is_zero (v : pyval) : bool :=
  match v with
  | PFloat f => (f =? 0)%float
  | PInt z => (z =? 0)%Z
  | _ => false
  end.

Definition zero_or_None (v : pyval) : Prop := is_zero v = true ∨ v = PNone.

(** The exposure limits with every stored zero replaced by null. *)
Definition zero_to_None (v : pyval) : pyval := if is_zero v then PNone else v.

Definition without_zero_limits (data : exposure_limits) : exposure_limits := {|
  ol_Name := ol_Name data;
  ol_TWA_ppm := zero_to_None (ol_TWA_ppm data);
  ol_TWA_mgm3 := zero_to_None (ol_TWA_mgm3 data);
  ol_STEL_ppm := zero_to_None (ol_STEL_ppm data);
  ol_STEL_mgm3 := zero_to_None (ol_STEL_mgm3 data);
  ol_Ceiling_ppm := zero_to_None (ol_Ceiling_ppm data);
  ol_Ceiling_mgm3 := zero_to_None (ol_Ceiling_mgm3 data);
  ol_Skin := ol_Skin data;
  ol_MW := ol_MW data
|}.

Definition drop_zero_limits (g : safety_data) : safety_data := {|
  Ontario_exposure_limits_dict :=
    prod_map id without_zero_limits <$> Ontario_exposure_limits_dict g;
  NFPA_2008_data := NFPA_2008_data g;
  IEC_2010_data := IEC_2010_data g;
  DIPPR_SERAT_data := DIPPR_SERAT_data g;
  NTP_data := NTP_data g;
  IARC_data := IARC_data g
|}.

(** The error of an invalid method. *)
Definition invalid_method {A : Type} (r : result A) : bool :=
  match r with Raise (ValueError _ _) => true | _ => false end.

(** * Lazy loading of the tables *)

(** The tables are module globals that [_load_safety_data] and
    [_load_dipole_data] bind.  Here the state of the two modules is
    explicit: which globals are bound, the flag, and how many times the load
    has run; [files] stands for the tables the bundled files hold. *)
Module Loading.

(** A call returns what the function gives on the bound tables, or raises
    the [NameError] of a global that is not bound. *)
Inductive outcome (A : Type) : Type :=
| Returned (a : A)
| NameError.
Arguments Returned {A} a.
Arguments NameError {A}.

(** ** safety.py *)

Record safety_module : Type := {
  _safety_data_loaded : bool;
  safety_globals : option safety_data;
  safety_loads : nat
}.

(** [_load_safety_data()] (lines 237-258): binds the tables and the
    registries, then sets the flag. *)
Definition _load_safety_data (files : safety_data) (st : safety_module)
    : safety_module :=
  {| _safety_data_loaded := true;
     safety_globals := Some files;
     safety_loads := S (safety_loads st) |}.

(** The module after the load has run once from the import. *)
Definition safety_loaded (files : safety_data) : safety_module :=
  {| _safety_data_loaded := true; safety_globals := Some files; safety_loads := 1 |}.

(** The import of the module: [_safety_data_loaded = False], then, unless
    [PY37], the load (lines 227 and 260-268). *)
Definition import_safety (PY37 : bool) (files : safety_data) : safety_module :=
  let st := {| _safety_data_loaded := false;
               safety_globals := None;
               safety_loads := 0 |} in
  if PY37 then st else _load_safety_data files st.

(** A function whose body starts with
    [if not _safety_data_loaded: _load_safety_data()] and then reads the
    globals. *)
Definition latched {A : Type} (files : safety_data) (body : safety_data → A)
    (st : safety_module) : outcome A * safety_module :=
  let st := if _safety_data_loaded st then st else _load_safety_data files st in
  (match safety_globals st with
   | Some g => Returned (body g)
   | None => NameError
   end, st).

(** A function that reads the globals without that line. *)
Definition unlatched {A : Type} (body : safety_data → A)
    (st : safety_module) : outcome A * safety_module :=
  (match safety_globals st with
   | Some g => Returned (body g)
   | None => NameError
   end, st).

(** The lookup functions as they are called. *)
Definition call_TWA_methods files CASRN := latched files (λ g, TWA_methods g CASRN).
Definition call_TWA files CASRN method := latched files (λ g, TWA g CASRN method).
Definition call_STEL_methods files CASRN := latched files (λ g, STEL_methods g CASRN).
Definition call_STEL files CASRN method := latched files (λ g, STEL g CASRN method).
Definition call_Ceiling_methods files CASRN :=
  latched files (λ g, Ceiling_methods g CASRN).
Definition call_Ceiling files CASRN method :=
  latched files (λ g, Ceiling g CASRN method).
Definition call_Skin_methods CASRN := unlatched (λ g, Skin_methods g CASRN).
Definition call_Skin files CASRN method := latched files (λ g, Skin g CASRN method).
Definition call_Carcinogen files CASRN method :=
  latched files (λ g, Carcinogen g CASRN method).
Definition call_T_flash_methods files CASRN :=
  latched files (λ g, T_flash_methods g CASRN).
Definition call_T_flash files CASRN method :=
  latched files (λ g, T_flash g CASRN method).
Definition call_T_autoignition_methods files CASRN :=
  latched files (λ g, T_autoignition_methods g CASRN).
Definition call_T_autoignition files CASRN method :=
  latched files (λ g, T_autoignition g CASRN method).
Definition call_LFL_methods files Hc atoms CASRN :=
  latched files (λ g, LFL_methods g Hc atoms CASRN).
Definition call_LFL files Hc atoms CASRN method :=
  latched files (λ g, LFL g Hc atoms CASRN method).
Definition call_UFL_methods files Hc atoms CASRN :=
  latched files (λ g, UFL_methods g Hc atoms CASRN).
Definition call_UFL files Hc atoms CASRN method :=
  latched files (λ g, UFL g Hc atoms CASRN method).

(** [__all__] of safety.py (lines 90-106). *)
Definition safety_all : list string :=
  [ "ppmv_to_mgm3"; "mgm3_to_ppmv"; "NFPA_2008_data"; "IEC_2010_data";
    "Ontario_exposure_limits_dict"; "NTP_data"; "NTP_codes"; "IARC_data";
    "IARC_codes"; "Skin_all_methods"; "Ceiling_all_methods"; "STEL_all_methods";
    "TWA_all_methods"; "TWA_methods"; "TWA"; "STEL"; "STEL_methods"; "Ceiling";
    "Ceiling_methods"; "Skin"; "Skin_methods"; "Carcinogen_methods";
    "Carcinogen_all_methods"; "Carcinogen"; "T_flash_all_methods";
    "T_flash_methods"; "T_flash"; "T_autoignition_methods";
    "T_autoignition_all_methods"; "T_autoignition"; "LFL_methods";
    "LFL_all_methods"; "LFL"; "UFL_methods"; "UFL_all_methods"; "UFL";
    "fire_mixing"; "inerts"; "Suzuki_LFL"; "Suzuki_UFL"; "Crowl_Louvar_LFL";
    "Crowl_Louvar_UFL"; "DIPPR_SERAT_data"; "NFPA_combustible_classification" ].

(** The names of [__all__] that only the load binds, and those of them that
    the module [__getattr__] answers (lines 261-266). *)
Definition table_names : list string :=
  [ "NFPA_2008_data"; "IEC_2010_data"; "Ontario_exposure_limits_dict";
    "NTP_data"; "IARC_data"; "DIPPR_SERAT_data" ].

Definition lazy_names : list string :=
  [ "Ontario_exposure_limits_dict"; "NFPA_2008_data"; "IEC_2010_data";
    "DIPPR_SERAT_data" ].

Inductive attribute : Type :=
| Bound
| AttributeError
| NotInAll.

(** [getattr(module, name)] for a name of [__all__]: a function or a
    constant is bound on import; a table is bound once the load has run;
    before that, with [PY37], the module [__getattr__] loads for the names
    it lists and raises for the others. *)
Definition module_getattr (PY37 : bool) (files : safety_data) (name : string)
    (st : safety_module) : attribute * safety_module :=
  if negb (bool_decide (name ∈ safety_all)) then (NotInAll, st)
  else if negb (bool_decide (name ∈ table_names)) then (Bound, st)
  else
    match safety_globals st with
    | Some _ => (Bound, st)
    | None =>
        if PY37 && bool_decide (name ∈ lazy_names)
        then (Bound, _load_safety_data files st)
        else (AttributeError, st)
    end.

(** [from chemicals.safety import *]: the names of [__all__] in order, up
    to the first that raises. *)
Fixpoint getattr_each (PY37 : bool) (files : safety_data) (names : list string)
    (st : safety_module) : attribute * safety_module :=
  match names with
  | [] => (Bound, st)
  | name :: names =>
      match module_getattr PY37 files name st with
      | (Bound, st) => getattr_each PY37 files names st
      | r => r
      end
  end.

Definition import_star (PY37 : bool) (files : safety_data) (st : safety_module)
    : attribute * safety_module :=
  getattr_each PY37 files safety_all st.

(** The states the module goes through: from the import, by calls and by
    attribute lookups. *)
Inductive safety_reachable (PY37 : bool) (files : safety_data)
    : safety_module → Prop :=
| reach_import : safety_reachable PY37 files (import_safety PY37 files)
| reach_latched {A} (body : safety_data → A) st :
    safety_reachable PY37 files st →
    safety_reachable PY37 files (latched files body st).2
| reach_getattr name st :
    safety_reachable PY37 files st →
    safety_reachable PY37 files (module_getattr PY37 files name st).2.

(** ** dipole.py *)

Record dipole_module : Type := {
  dipole_names_bound : bool;
  _dipole_data_loaded : bool;
  dipole_globals : option dipole_data;
  dipole_loads : nat
}.

(** [_load_dipole_data()] (dipole.py, lines 40-49): reads the three tables,
    then builds [dipole_sources] from them and from the globals [CCCBDB],
    [MULLER] and [POLING], which must be bound; it does not touch the
    flag. *)
Definition _load_dipole_data (files : dipole_data) (st : dipole_module)
    : outcome dipole_module :=
  if dipole_names_bound st then
    Returned {| dipole_names_bound := true;
                _dipole_data_loaded := _dipole_data_loaded st;
                dipole_globals := Some files;
                dipole_loads := S (dipole_loads st) |}
  else NameError.

(** The import of the module, in the order of the file: the flag (line
    39), the load unless [PY37] (lines 51-58), and only then the names
    [CCCBDB], [MULLER] and [POLING] (lines 62-64). *)
Definition import_dipole (PY37 : bool) (files : dipole_data)
    : outcome dipole_module :=
  let st := {| dipole_names_bound := false;
               _dipole_data_loaded := false;
               dipole_globals := None;
               dipole_loads := 0 |} in
  match (if PY37 then Returned st else _load_dipole_data files st) with
  | Returned st =>
      Returned {| dipole_names_bound := true;
                  _dipole_data_loaded := _dipole_data_loaded st;
                  dipole_globals := dipole_globals st;
                  dipole_loads := dipole_loads st |}
  | NameError => NameError
  end.

(** [dipole_moment] as it is called: the latch line, then the body on the
    bound tables. *)
Definition call_dipole_moment (files : dipole_data)
    (CASRN : string) (get_methods : bool) (method : pyval) (st : dipole_module)
    : outcome (result dipole_result) * dipole_module :=
  match (if _dipole_data_loaded st then Returned st
         else _load_dipole_data files st) with
  | Returned st =>
      (match dipole_globals st with
       | Some g => Returned (dipole_moment g CASRN get_methods method)
       | None => NameError
       end, st)
  | NameError => (NameError, st)
  end.

Inductive dipole_reachable (files : dipole_data) : dipole_module → Prop :=
| dreach_import st :
    import_dipole true files = Returned st → dipole_reachable files st
| dreach_call CASRN get_methods method st :
    dipole_reachable files st →
    dipole_reachable files (call_dipole_moment files CASRN get_methods method st).2.

End Loading.

Section Resolver.

Implicit Types (R : registry) (t : table) (i f s : string) (v : pyval).

Lemma is_not_None_true v : is_not_None v = true ↔ v ≠ PNone.
Proof. destruct v; simpl; split; (done || congruence). Qed.


Lemma has_field_get_field t i f :
  has_field (get_row t i) f = is_not_None (get_field t i f).
Proof.
  unfold get_field, has_field, get_row.
  destruct (t !! i) as [cells|]; simpl; [|done].
  destruct (cells !! f) as [v|]; simpl; [|done].
  by destruct v.
Qed.

Lemma has_field_absent_row t i f : t !! i = None → has_field (get_row t i) f = false.
Proof. intros H. unfold get_row. by rewrite H. Qed.



Lemma list_available_keys R i f s :
  s ∈ list_available_methods_from_df_dict R i f → s ∈ dict_keys R.
Proof.
  unfold dict_keys.
  induction R as [|[k t] R IH]; simpl; [done|].
  destruct (has_field (get_row t i) f).
  - rewrite !elem_of_cons. intros [->|H]; auto.
  - rewrite elem_of_cons. auto.
Qed.

Lemma list_available_nil_iff R i f :
  list_available_methods_from_df_dict R i f = [] ↔
  retrieve_any_from_df_dict R i f = PNone.
Proof.
  induction R as [|[k t] R IH]; simpl; [done|].
  destruct (has_field (get_row t i) f) eqn:E; [|done].
  rewrite has_field_get_field in E. apply is_not_None_true in E.
  split; [done|]. intros H. by destruct E.
Qed.

Lemma first_available_source R i f s :
  NoDup (dict_keys R) →
  head (list_available_methods_from_df_dict R i f) = Some s →
  ∃ t, dict_get R s = Some t ∧ get_field t i f = retrieve_any_from_df_dict R i f.
Proof.
  unfold dict_keys.
  induction R as [|[k t] R IH]; simpl; [done|].
  intros Hnd Hs. apply NoDup_cons in Hnd as [Hk Hnd].
  destruct (has_field (get_row t i) f) eqn:E.
  - simpl in Hs. injection Hs as ->. exists t. by rewrite String.eqb_refl.
  - assert (k ≠ s) as Hne.
    { intros ->. apply Hk. apply (list_available_keys R i f).
      by apply head_Some_elem_of. }
    destruct (String.eqb_spec k s); [done|]. by apply IH.
Qed.

Lemma retrieve_from_first_available R i f s :
  NoDup (dict_keys R) →
  head (list_available_methods_from_df_dict R i f) = Some s →
  retrieve_from_df_dict R i f (PStr s) = Ok (retrieve_any_from_df_dict R i f).
Proof.
  intros Hnd Hs. unfold retrieve_from_df_dict.
  destruct (first_available_source R i f s Hnd Hs) as (t & -> & ->). done.
Qed.

End Resolver.

(** * The state of the modules *)

Import Loading.

(** The two states the module of safety.py can be in. *)
Lemma safety_reachable_inv PY37 files st :
  safety_reachable PY37 files st →
  (_safety_data_loaded st = true ∧ safety_globals st = Some files
   ∧ safety_loads st = 1)
  ∨ (PY37 = true ∧ _safety_data_loaded st = false ∧ safety_globals st = None
     ∧ safety_loads st = 0).
Proof.
  induction 1 as [|A body st _ IH|name st _ IH].
  - destruct PY37; [by right|by left].
  - destruct IH as [(Hl & Hg & Hn)|(HP & Hl & Hg & Hn)];
      unfold latched; rewrite Hl; cbn; [by left|left; by rewrite Hn].
  - unfold module_getattr.
    destruct (negb (bool_decide (name ∈ safety_all))); [done|].
    destruct (negb (bool_decide (name ∈ table_names))); [done|].
    destruct IH as [(Hl & Hg & Hn)|(HP & Hl & Hg & Hn)]; rewrite Hg.
    + by left.
    + destruct (PY37 && bool_decide (name ∈ lazy_names)); cbn;
        [left; by rewrite Hn|by right].
Qed.

Lemma latched_from_reachable PY37 files st {A} (body : safety_data → A) :
  safety_reachable PY37 files st →
  (latched files body st).1 = Returned (body files)
  ∧ _safety_data_loaded (latched files body st).2 = true
  ∧ safety_loads (latched files body st).2 = 1.
Proof.
  intros Hr.
  destruct (safety_reachable_inv _ _ _ Hr) as [(Hl & Hg & Hn)|(HP & Hl & Hg & Hn)];
    unfold latched; rewrite Hl; cbn; [by rewrite Hg, Hl, Hn|by rewrite Hn].
Qed.

(** The states the module of dipole.py can be in: the names are bound,
    the flag is never set. *)
Lemma dipole_reachable_inv files st :
  dipole_reachable files st →
  dipole_names_bound st = true ∧ _dipole_data_loaded st = false
  ∧ (dipole_globals st = None ∨ dipole_globals st = Some files).
Proof.
  induction 1 as [st H|CASRN gm method st _ (Hn & Hl & Hg)].
  - injection H as <-. cbn. auto.
  - unfold call_dipole_moment, _load_dipole_data. rewrite Hl, Hn. cbn. auto.
Qed.

(** * Properties of the lookup functions *)

(** The registries are built in a fixed order, with distinct names. *)
Lemma dipole_sources_keys g :
  dict_keys (dipole_sources g) = [CCCBDB; MULLER; POLING].
Proof. reflexivity. Qed.

Lemma Tflash_sources_keys g : dict_keys (Tflash_sources g) = [IEC; NFPA; SERAT].
Proof. reflexivity. Qed.

Lemma Tautoignition_sources_keys g : dict_keys (Tautoignition_sources g) = [IEC; NFPA].
Proof. reflexivity. Qed.

Ltac distinct_names :=
  repeat (apply NoDup_cons; split;
          [rewrite ?not_elem_of_cons; repeat split;
           solve [discriminate | apply not_elem_of_nil]|]);
  apply NoDup_nil_2.

Lemma dipole_sources_NoDup g : NoDup (dict_keys (dipole_sources g)).
Proof. rewrite dipole_sources_keys. distinct_names. Qed.

Lemma Tflash_sources_NoDup g : NoDup (dict_keys (Tflash_sources g)).
Proof. rewrite Tflash_sources_keys. distinct_names. Qed.

Lemma Tautoignition_sources_NoDup g : NoDup (dict_keys (Tautoignition_sources g)).
Proof. rewrite Tautoignition_sources_keys. distinct_names. Qed.

(** The branch a falsy method takes in [LFL] and [UFL]. *)
Lemma LFL_default g Hc atoms CASRN method :
  truthy method = false →
  LFL g Hc atoms CASRN method =
    let v := retrieve_any_from_df_dict (LFL_sources g) CASRN "LFL" in
    if truthy v then Ok v
    else if truthy Hc then Suzuki_LFL Hc
    else if atoms_truthy atoms then Crowl_Louvar_LFL atoms
    else Ok v.
Proof.
  intros Hm. unfold LFL. rewrite Hm. cbn [negb].
  by destruct (truthy (retrieve_any_from_df_dict _ _ _)).
Qed.

Lemma UFL_default g Hc atoms CASRN method :
  truthy method = false →
  UFL g Hc atoms CASRN method =
    let v := retrieve_any_from_df_dict (UFL_sources g) CASRN "UFL" in
    if truthy v then Ok v
    else if is_not_None Hc then Suzuki_UFL Hc
    else if atoms_is_not_None atoms then Crowl_Louvar_UFL atoms
    else Ok v.
Proof.
  intros Hm. unfold UFL. rewrite Hm. cbn [negb].
  by destruct (truthy (retrieve_any_from_df_dict _ _ _)).
Qed.

(** ** Default resolution *)




(** ** Invalid methods *)

(** C2: a method that no property knows is refused by [Ceiling] too, but the
    message of [Ceiling] is formatted with the CASRNs of the exposure limit
    table, [list(Ontario_exposure_limits_dict)], where [TWA], [STEL] and
    [Skin] give the method names. *)
Theorem Ceiling_invalid_method_lists_CASRNs :
  (∀ g CASRN,
      Ceiling g CASRN (PStr "BADMETHOD") =
        Raise (ValueError (PStr "BADMETHOD")
                 (dict_keys (Ontario_exposure_limits_dict g))))
  ∧ Ceiling Samples.some_data "75-07-0" (PStr "BADMETHOD") =
      Raise (ValueError (PStr "BADMETHOD") ["98-00-0"; "75-07-0"])
  ∧ Ceiling_all_methods = ["Ontario Limits"]
  ∧ (∀ g CASRN,
      TWA g CASRN (PStr "BADMETHOD") =
        Raise (ValueError (PStr "BADMETHOD") ["Ontario Limits"])
      ∧ STEL g CASRN (PStr "BADMETHOD") =
        Raise (ValueError (PStr "BADMETHOD") ["Ontario Limits"])
      ∧ Skin g CASRN (PStr "BADMETHOD") =
        Raise (ValueError (PStr "BADMETHOD") ["Ontario Limits"])).
Proof. repeat split. Qed.

(** ** Estimator fallback *)

(** A method that is truthy and names no estimator goes to the registry. *)
Lemma LFL_explicit g Hc atoms CASRN method :
  truthy method = true →
  py_eq_str method SUZUKI = false →
  py_eq_str method CROWLLOUVAR = false →
  LFL g Hc atoms CASRN method = retrieve_from_df_dict (LFL_sources g) CASRN "LFL" method.
Proof. intros H1 H2 H3. unfold LFL. by rewrite H1, H2, H3. Qed.

Lemma UFL_explicit g Hc atoms CASRN method :
  truthy method = true →
  py_eq_str method SUZUKI = false →
  py_eq_str method CROWLLOUVAR = false →
  UFL g Hc atoms CASRN method = retrieve_from_df_dict (UFL_sources g) CASRN "UFL" method.
Proof. intros H1 H2 H3. unfold UFL. by rewrite H1, H2, H3. Qed.

(** C3, as stated, fails: a chemical whose lower flammability limit is
    tabulated as [0.0] has a value under [retrieve_any], and yet [LFL], given
    a heat of combustion, returns the Suzuki estimate; so does [UFL]. *)
Lemma LFL_estimator_after_zero_hit :
  retrieve_any_from_df_dict (LFL_sources Samples.zero_limit_data) "0-00-0" "LFL"
    = PFloat 0
  ∧ LFL Samples.zero_limit_data Samples.methane_Hc None "0-00-0" PNone
    = Suzuki_LFL Samples.methane_Hc
  ∧ Suzuki_LFL Samples.methane_Hc = Ok (PFloat 0.05176076700681484)
  ∧ retrieve_any_from_df_dict (UFL_sources Samples.zero_limit_data) "0-00-0" "UFL"
    = PFloat 0
  ∧ UFL Samples.zero_limit_data Samples.methane_Hc None "0-00-0" PNone
    = Suzuki_UFL Samples.methane_Hc
  ∧ Suzuki_UFL Samples.methane_Hc = Ok (PFloat 0.18338999360772701).
Proof. repeat split; by vm_compute. Qed.

(** C3, amended: with no method, [LFL] and [UFL] return the value of
    [retrieve_any] over the tabulated sources whenever it is truthy, and go
    to the estimators only when it is [None] or falsy (a tabulated zero);
    with a method that names a tabulated source the result is that of the
    explicit lookup alone, whatever [Hc] and [atoms] are. *)
Theorem estimator_fallback_rule g Hc atoms CASRN :
  (truthy (retrieve_any_from_df_dict (LFL_sources g) CASRN "LFL") = true →
     LFL g Hc atoms CASRN PNone =
       Ok (retrieve_any_from_df_dict (LFL_sources g) CASRN "LFL"))
  ∧ (truthy (retrieve_any_from_df_dict (LFL_sources g) CASRN "LFL") = false →
     LFL g Hc atoms CASRN PNone =
       if truthy Hc then Suzuki_LFL Hc
       else if atoms_truthy atoms then Crowl_Louvar_LFL atoms
       else Ok (retrieve_any_from_df_dict (LFL_sources g) CASRN "LFL"))
  ∧ (truthy (retrieve_any_from_df_dict (UFL_sources g) CASRN "UFL") = true →
     UFL g Hc atoms CASRN PNone =
       Ok (retrieve_any_from_df_dict (UFL_sources g) CASRN "UFL"))
  ∧ (truthy (retrieve_any_from_df_dict (UFL_sources g) CASRN "UFL") = false →
     UFL g Hc atoms CASRN PNone =
       if is_not_None Hc then Suzuki_UFL Hc
       else if atoms_is_not_None atoms then Crowl_Louvar_UFL atoms
       else Ok (retrieve_any_from_df_dict (UFL_sources g) CASRN "UFL"))
  ∧ (∀ method,
       truthy method = true →
       py_eq_str method SUZUKI = false →
       py_eq_str method CROWLLOUVAR = false →
       LFL g Hc atoms CASRN method
         = retrieve_from_df_dict (LFL_sources g) CASRN "LFL" method
       ∧ UFL g Hc atoms CASRN method
         = retrieve_from_df_dict (UFL_sources g) CASRN "UFL" method)
  ∧ LFL g Hc atoms CASRN (PStr IEC) = Ok (get_field (IEC_2010_data g) CASRN "LFL")
  ∧ LFL g Hc atoms CASRN (PStr NFPA) = Ok (get_field (NFPA_2008_data g) CASRN "LFL")
  ∧ UFL g Hc atoms CASRN (PStr IEC) = Ok (get_field (IEC_2010_data g) CASRN "UFL")
  ∧ UFL g Hc atoms CASRN (PStr NFPA) = Ok (get_field (NFPA_2008_data g) CASRN "UFL").
Proof.
  repeat apply conj.
  - intros Hv. rewrite LFL_default by done. cbn zeta. by rewrite Hv.
  - intros Hv. rewrite LFL_default by done. cbn zeta. by rewrite Hv.
  - intros Hv. rewrite UFL_default by done. cbn zeta. by rewrite Hv.
  - intros Hv. rewrite UFL_default by done. cbn zeta. by rewrite Hv.
  - intros method H1 H2 H3. split; [by apply LFL_explicit|by apply UFL_explicit].
  - by rewrite LFL_explicit.
  - by rewrite LFL_explicit.
  - by rewrite UFL_explicit.
  - by rewrite UFL_explicit.
Qed.

Lemma estimator_fallback_rule_witness :
  LFL Samples.some_data Samples.methane_Hc Samples.methane_atoms "74-82-8" PNone
    = Ok (PFloat 0.044)
  ∧ LFL Samples.zero_limit_data Samples.methane_Hc None "0-00-0" (PStr NFPA)
    = Ok (PFloat 0.05).
Proof.
  split.
  - destruct (estimator_fallback_rule Samples.some_data Samples.methane_Hc
                Samples.methane_atoms "74-82-8") as (H & _).
    rewrite H; by vm_compute.
  - destruct (estimator_fallback_rule Samples.zero_limit_data Samples.methane_Hc
                None "0-00-0") as (_ & _ & _ & _ & _ & _ & H & _).
    rewrite H. by vm_compute.
Defined.

(** ** Methods of the flammability limits *)

(** C4: [LFL_methods] and [UFL_methods] return the tabulated sources that
    have the limit, then ['Suzuki (1994)'] exactly when [Hc] is given and
    ['Crowl and Louvar (2001)'] exactly when [atoms] is given, whatever the
    tables hold; for methane, which both tables list, with both inputs
    given, that is the two sources and the two estimators, in this order. *)
Theorem flammability_methods_append_estimators :
  (∀ g Hc atoms CASRN,
      LFL_methods g Hc atoms CASRN =
        (list_available_methods_from_df_dict (LFL_sources g) CASRN "LFL"
           ++ (if is_not_None Hc then [SUZUKI] else [])
           ++ (if atoms_is_not_None atoms then [CROWLLOUVAR] else []))%list
      ∧ UFL_methods g Hc atoms CASRN =
        (list_available_methods_from_df_dict (UFL_sources g) CASRN "UFL"
           ++ (if is_not_None Hc then [SUZUKI] else [])
           ++ (if atoms_is_not_None atoms then [CROWLLOUVAR] else []))%list)
  ∧ (∀ g Hc atoms,
      get_field (IEC_2010_data g) "74-82-8" "LFL" ≠ PNone →
      get_field (NFPA_2008_data g) "74-82-8" "LFL" ≠ PNone →
      Hc ≠ PNone →
      atoms ≠ None →
      LFL_methods g Hc atoms "74-82-8" =
        [ "IEC 60079-20-1 (2010)"; "NFPA 497 (2008)";
          "Suzuki (1994)"; "Crowl and Louvar (2001)" ]).
Proof.
  split.
  - intros g Hc atoms c. unfold LFL_methods, UFL_methods.
    destruct (is_not_None Hc), (atoms_is_not_None atoms);
      by rewrite ?app_nil_r, <- ?app_assoc.
  - intros g Hc atoms H1 H2 HHc Hatoms. unfold LFL_methods.
    apply is_not_None_true in H1, H2, HHc.
    rewrite <- has_field_get_field in H1, H2.
    unfold LFL_sources, Tautoignition_sources. cbn [list_available_methods_from_df_dict].
    rewrite H1, H2, HHc. by destruct atoms.
Qed.

Lemma flammability_methods_append_estimators_witness :
  LFL_methods Samples.some_data Samples.methane_Hc Samples.methane_atoms "74-82-8" =
    [ "IEC 60079-20-1 (2010)"; "NFPA 497 (2008)";
      "Suzuki (1994)"; "Crowl and Louvar (2001)" ].
Proof.
  apply flammability_methods_append_estimators; by vm_compute.
Defined.

(** ** Methods and values *)

Lemma LFL_no_inputs g CASRN :
  LFL g PNone None CASRN PNone
    = Ok (retrieve_any_from_df_dict (LFL_sources g) CASRN "LFL").
Proof.
  rewrite LFL_default by done. cbn zeta.
  change (truthy PNone) with false. change (atoms_truthy None) with false.
  by destruct (truthy _).
Qed.

Lemma UFL_no_inputs g CASRN :
  UFL g PNone None CASRN PNone
    = Ok (retrieve_any_from_df_dict (UFL_sources g) CASRN "UFL").
Proof.
  rewrite UFL_default by done. cbn zeta.
  change (is_not_None PNone) with false. change (atoms_is_not_None None) with false.
  by destruct (truthy _).
Qed.











(** ** First-hit consistency *)

(** C6: the value of the default retrieval is the value of the explicit
    retrieval from the first method of the methods list: for every
    registry (a dict: its names are distinct), and so for [dipole_moment],
    [T_flash] and [T_autoignition]; the exposure limits have the one method
    ['Ontario Limits'], which gives what no method gives. *)
Theorem first_hit_consistency :
  (∀ (R : registry) i f s,
      NoDup (dict_keys R) →
      head (list_available_methods_from_df_dict R i f) = Some s →
      retrieve_from_df_dict R i f (PStr s) = Ok (retrieve_any_from_df_dict R i f))
  ∧ (∀ g CASRN m ms,
      dipole_moment g CASRN true PNone = Ok (Methods (m :: ms)) →
      dipole_moment g CASRN false (PStr m) = dipole_moment g CASRN false PNone)
  ∧ (∀ g CASRN m ms,
      T_flash_methods g CASRN = m :: ms →
      T_flash g CASRN (PStr m) = T_flash g CASRN PNone)
  ∧ (∀ g CASRN m ms,
      T_autoignition_methods g CASRN = m :: ms →
      T_autoignition g CASRN (PStr m) = T_autoignition g CASRN PNone)
  ∧ (∀ g CASRN,
      TWA g CASRN (PStr ONTARIO) = TWA g CASRN PNone
      ∧ STEL g CASRN (PStr ONTARIO) = STEL g CASRN PNone
      ∧ Ceiling g CASRN (PStr ONTARIO) = Ceiling g CASRN PNone
      ∧ Skin g CASRN (PStr ONTARIO) = Skin g CASRN PNone).
Proof.
  split_and!; [| | | |done].
  - exact retrieve_from_first_available.
  - intros g c m ms H. unfold dipole_moment in *.
    assert (head (list_available_methods_from_df_dict (dipole_sources g) c "Dipole")
            = Some m) as Hm.
    { assert (list_available_methods_from_df_dict (dipole_sources g) c "Dipole"
              = m :: ms) as -> by congruence. done. }
    destruct (truthy (PStr m)); [|done].
    by rewrite (retrieve_from_first_available _ _ _ _ (dipole_sources_NoDup g) Hm).
  - intros g c m ms H. unfold T_flash_methods, T_flash in *.
    destruct (truthy (PStr m)); [|done].
    apply retrieve_from_first_available; [apply Tflash_sources_NoDup|].
    by rewrite H.
  - intros g c m ms H. unfold T_autoignition_methods, T_autoignition in *.
    destruct (truthy (PStr m)); [|done].
    apply retrieve_from_first_available; [apply Tautoignition_sources_NoDup|].
    by rewrite H.
Qed.

Lemma first_hit_consistency_witness :
  dipole_moment Samples.ethanol_poling_only "64-17-5" true PNone
    = Ok (Methods ["POLING"])
  ∧ dipole_moment Samples.ethanol_poling_only "64-17-5" false (PStr "POLING")
    = dipole_moment Samples.ethanol_poling_only "64-17-5" false PNone.
Proof.
  assert (dipole_moment Samples.ethanol_poling_only "64-17-5" true PNone
          = Ok (Methods ["POLING"])) as H by (by vm_compute).
  split; [exact H|].
  destruct first_hit_consistency as (_ & Hd & _).
  exact (Hd Samples.ethanol_poling_only "64-17-5" "POLING" [] H).
Defined.

(** ** Missing data *)

(** C7, as stated, fails: for a chemical that no source lists,
    [Carcinogen_methods] still returns both methods, and [Carcinogen], with
    no method, returns the statuses ['Unlisted'], not [None]; and
    [Skin_methods], called first in a module that loads its tables lazily,
    raises [NameError]. *)
Lemma Carcinogen_methods_never_empty :
  in_no_safety_source Samples.no_data "0-00-0"
  ∧ Carcinogen_methods "0-00-0" = [ IARC; NTP ]
  ∧ Carcinogen_methods "0-00-0" ≠ []
  ∧ Carcinogen Samples.no_data "0-00-0" PNone =
      Ok (Statuses [ (IARC, "Unlisted"); (NTP, "Unlisted") ])
  ∧ (call_Carcinogen Samples.no_data "0-00-0" PNone
       (import_safety true Samples.no_data)).1
    = Returned (Ok (Statuses [ (IARC, "Unlisted"); (NTP, "Unlisted") ]))
  ∧ (call_Skin_methods "0-00-0" (import_safety true Samples.no_data)).1 = NameError.
Proof. split_and!; done. Qed.

(** On bound tables that do not list the identifier, every body but that
    of [Carcinogen] returns nothing. *)
Lemma no_safety_source_bodies g CASRN :
  in_no_safety_source g CASRN →
  (TWA g CASRN PNone = Ok None ∧ TWA_methods g CASRN = [])
  ∧ (STEL g CASRN PNone = Ok None ∧ STEL_methods g CASRN = [])
  ∧ (Ceiling g CASRN PNone = Ok None ∧ Ceiling_methods g CASRN = [])
  ∧ (Skin g CASRN PNone = Ok None ∧ Skin_methods g CASRN = [])
  ∧ (T_flash g CASRN PNone = Ok PNone ∧ T_flash_methods g CASRN = [])
  ∧ (T_autoignition g CASRN PNone = Ok PNone
     ∧ T_autoignition_methods g CASRN = [])
  ∧ (LFL g PNone None CASRN PNone = Ok PNone
     ∧ LFL_methods g PNone None CASRN = [])
  ∧ (UFL g PNone None CASRN PNone = Ok PNone
     ∧ UFL_methods g PNone None CASRN = [])
  ∧ Carcinogen g CASRN PNone = Ok (Statuses [ (IARC, UNLISTED); (NTP, UNLISTED) ]).
Proof.
  intros (HO & HN & HI & HS & HT & HA).
  assert (∀ f, has_field (get_row (NFPA_2008_data g) CASRN) f = false) as EN
    by (intros f; by apply has_field_absent_row).
  assert (∀ f, has_field (get_row (IEC_2010_data g) CASRN) f = false) as EI
    by (intros f; by apply has_field_absent_row).
  assert (∀ f, has_field (get_row (DIPPR_SERAT_data g) CASRN) f = false) as ES
    by (intros f; by apply has_field_absent_row).
  split_and!.
  - unfold TWA. by rewrite HO.
  - unfold TWA_methods. by rewrite HO.
  - unfold STEL. by rewrite HO.
  - unfold STEL_methods. by rewrite HO.
  - unfold Ceiling. by rewrite HO.
  - unfold Ceiling_methods. by rewrite HO.
  - unfold Skin. by rewrite HO.
  - unfold Skin_methods. by rewrite HO.
  - unfold T_flash, Tflash_sources. cbn. by rewrite EI, EN, ES.
  - unfold T_flash_methods, Tflash_sources. cbn. by rewrite EI, EN, ES.
  - unfold T_autoignition, Tautoignition_sources. cbn. by rewrite EI, EN.
  - unfold T_autoignition_methods, Tautoignition_sources. cbn. by rewrite EI, EN.
  - rewrite LFL_no_inputs. unfold LFL_sources, Tautoignition_sources. cbn.
    by rewrite EI, EN.
  - unfold LFL_methods, LFL_sources, Tautoignition_sources. cbn.
    by rewrite EI, EN.
  - rewrite UFL_no_inputs. unfold UFL_sources, Tautoignition_sources. cbn.
    by rewrite EI, EN.
  - unfold UFL_methods, UFL_sources, Tautoignition_sources. cbn.
    by rewrite EI, EN.
  - unfold Carcinogen, in_index. cbn [truthy negb]. by rewrite HA, HT.
Qed.

Lemma no_dipole_source_body g CASRN :
  in_no_dipole_source g CASRN →
  dipole_moment g CASRN false PNone = Ok (Value PNone)
  ∧ dipole_moment g CASRN true PNone = Ok (Methods []).
Proof.
  intros (HC & HM & HP).
  assert (∀ f, has_field (get_row (dipole_data_CCDB g) CASRN) f = false) as EC
    by (intros f; by apply has_field_absent_row).
  assert (∀ f, has_field (get_row (dipole_data_Muller g) CASRN) f = false) as EM
    by (intros f; by apply has_field_absent_row).
  assert (∀ f, has_field (get_row (dipole_data_Poling g) CASRN) f = false) as EP
    by (intros f; by apply has_field_absent_row).
  unfold dipole_moment, dipole_sources. cbn. by rewrite EC, EM, EP.
Qed.

(** A call of a function with the load line, in a state the module can
    reach, returns what its body returns on the tables of the files. *)
Lemma latched_returns PY37 files st {A} (body : safety_data → A) (a : A) :
  safety_reachable PY37 files st →
  body files = a →
  (latched files body st).1 = Returned a.
Proof.
  intros Hr <-. by destruct (latched_from_reachable PY37 files st body Hr) as (-> & _).
Qed.

(** C7, amended: for an identifier that no source lists, in every state
    the modules can reach (the tables loaded or not yet), no lookup
    function that starts with the load line raises: [TWA], [STEL],
    [Ceiling], [Skin], [T_flash], [T_autoignition] and [dipole_moment], and
    [LFL] and [UFL] when no estimator input is given, return [None] with no
    method, and their methods queries return the empty list;
    [Skin_methods], which reads the table as it is, returns the empty list
    once the table is loaded: on import before Python 3.7, or after any
    lookup that loads; [Carcinogen] returns the status ['Unlisted'] for
    each source and [Carcinogen_methods] both methods. *)
Theorem missing_data_never_raises :
  (∀ PY37 files st CASRN,
      safety_reachable PY37 files st →
      in_no_safety_source files CASRN →
      ((call_TWA files CASRN PNone st).1 = Returned (Ok None)
       ∧ (call_TWA_methods files CASRN st).1 = Returned [])
      ∧ ((call_STEL files CASRN PNone st).1 = Returned (Ok None)
         ∧ (call_STEL_methods files CASRN st).1 = Returned [])
      ∧ ((call_Ceiling files CASRN PNone st).1 = Returned (Ok None)
         ∧ (call_Ceiling_methods files CASRN st).1 = Returned [])
      ∧ ((call_Skin files CASRN PNone st).1 = Returned (Ok None)
         ∧ (_safety_data_loaded st = true →
            (call_Skin_methods CASRN st).1 = Returned [])
         ∧ (PY37 = false → (call_Skin_methods CASRN st).1 = Returned [])
         ∧ (call_Skin_methods CASRN (call_Skin files CASRN PNone st).2).1
           = Returned [])
      ∧ ((call_T_flash files CASRN PNone st).1 = Returned (Ok PNone)
         ∧ (call_T_flash_methods files CASRN st).1 = Returned [])
      ∧ ((call_T_autoignition files CASRN PNone st).1 = Returned (Ok PNone)
         ∧ (call_T_autoignition_methods files CASRN st).1 = Returned [])
      ∧ ((call_LFL files PNone None CASRN PNone st).1 = Returned (Ok PNone)
         ∧ (call_LFL_methods files PNone None CASRN st).1 = Returned [])
      ∧ ((call_UFL files PNone None CASRN PNone st).1 = Returned (Ok PNone)
         ∧ (call_UFL_methods files PNone None CASRN st).1 = Returned [])
      ∧ ((call_Carcinogen files CASRN PNone st).1
           = Returned (Ok (Statuses [ (IARC, UNLISTED); (NTP, UNLISTED) ]))
         ∧ Carcinogen_methods CASRN = [ IARC; NTP ]))
  ∧ (∀ files st CASRN,
      dipole_reachable files st →
      in_no_dipole_source files CASRN →
      (call_dipole_moment files CASRN false PNone st).1
        = Returned (Ok (Value PNone))
      ∧ (call_dipole_moment files CASRN true PNone st).1
        = Returned (Ok (Methods []))).
Proof.
  split.
  - intros PY37 files st c Hr Hno.
    destruct (no_safety_source_bodies files c Hno)
      as ((? & ?) & (? & ?) & (? & ?) & (? & HSm) & (? & ?) & (? & ?)
          & (? & ?) & (? & ?) & ?).
    assert (_safety_data_loaded st = true →
            (call_Skin_methods c st).1 = Returned []) as Hloaded.
    { intros Hl. unfold call_Skin_methods, unlatched. cbn [fst].
      destruct (safety_reachable_inv _ _ _ Hr) as [(_ & -> & _)|(_ & Hl' & _)];
        [by rewrite HSm|congruence]. }
    split_and!;
      try (by apply (latched_returns PY37 files st _ _ Hr)); [| |done].
    + by apply Hloaded.
    + intros ->.
      destruct (safety_reachable_inv _ _ _ Hr) as [(Hl & _)|(? & _)]; [|done].
      by apply Hloaded.
  - intros files st c Hr Hno.
    destruct (no_dipole_source_body files c Hno) as (Hv & Hm).
    destruct (dipole_reachable_inv files st Hr) as (Hn & Hl & _).
    unfold call_dipole_moment, _load_dipole_data. rewrite Hl, Hn.
    cbn [fst dipole_globals]. by rewrite Hv, Hm.
Qed.

Lemma missing_data_never_raises_witness :
  (call_TWA Samples.some_data "0-00-0" PNone
     (import_safety true Samples.some_data)).1 = Returned (Ok None)
  ∧ (call_TWA_methods Samples.some_data "0-00-0"
       (import_safety true Samples.some_data)).1 = Returned []
  ∧ (call_Skin_methods "0-00-0" (import_safety false Samples.some_data)).1
    = Returned []
  ∧ (call_dipole_moment Samples.ethanol_dipoles "0-00-0" false PNone
       {| dipole_names_bound := true; _dipole_data_loaded := false;
          dipole_globals := None; dipole_loads := 0 |}).1
    = Returned (Ok (Value PNone)).
Proof.
  destruct missing_data_never_raises as (Hs & Hd).
  assert (in_no_safety_source Samples.some_data "0-00-0") as H1
    by (split_and!; by vm_compute).
  assert (in_no_dipole_source Samples.ethanol_dipoles "0-00-0") as H2
    by (split_and!; by vm_compute).
  destruct (Hs true Samples.some_data _ "0-00-0" (reach_import _ _) H1)
    as ((Ha & Hb) & _).
  destruct (Hs false Samples.some_data _ "0-00-0" (reach_import _ _) H1)
    as (_ & _ & _ & (_ & Hc & _) & _).
  destruct (Hd Samples.ethanol_dipoles _ "0-00-0"
              (dreach_import _ _ eq_refl) H2) as (He & _).
  split_and!; [exact Ha|exact Hb|by apply Hc|exact He].
Defined.

(** ** Ethanol *)

(** C8: the dipole registry is in the order CCCBDB, MULLER, POLING, so that
    for ethanol, with 1.44 debye in the CCCBDB table, [dipole_moment]
    returns 1.44 whatever the two other tables hold.  (The tables are
    data: that CCCBDB has 1.44 for ethanol is the hypothesis.) *)
Theorem dipole_moment_ethanol g :
  dict_keys (dipole_sources g) = [ "CCCBDB"; "MULLER"; "POLING" ]
  ∧ (get_field (dipole_data_CCDB g) "64-17-5" "Dipole" = PFloat 1.44 →
     dipole_moment g "64-17-5" false PNone = Ok (Value (PFloat 1.44))).
Proof.
  split; [done|]. intros H.
  unfold dipole_moment, dipole_sources. cbn [truthy retrieve_any_from_df_dict].
  by rewrite has_field_get_field, H.
Qed.

Lemma dipole_moment_ethanol_witness :
  get_field (dipole_data_Muller Samples.ethanol_dipoles) "64-17-5" "Dipole"
    = PFloat 1.66
  ∧ dipole_moment Samples.ethanol_dipoles "64-17-5" false PNone
    = Ok (Value (PFloat 1.44)).
Proof.
  split; [by vm_compute|].
  apply (proj2 (dipole_moment_ethanol Samples.ethanol_dipoles)).
  by vm_compute.
Defined.

(** ** Stored zeros *)

Lemma is_zero_falsy v : is_zero v = true → truthy v = false.
Proof. destruct v; simpl; try done; by intros ->. Qed.

Lemma zero_or_None_falsy v : zero_or_None v → truthy v = false.
Proof. intros [H| ->]; [by apply is_zero_falsy|done]. Qed.

Lemma is_zero_not_None v : is_zero v = true → v ≠ PNone.
Proof. by destruct v. Qed.

Lemma truthy_zero_to_None v : truthy (zero_to_None v) = truthy v.
Proof.
  unfold zero_to_None. destruct (is_zero v) eqn:E; [|done].
  by rewrite (is_zero_falsy v E).
Qed.

Lemma zero_to_None_truthy v : truthy v = true → zero_to_None v = v.
Proof.
  unfold zero_to_None. destruct (is_zero v) eqn:E; [|done].
  by rewrite (is_zero_falsy v E).
Qed.

Lemma dict_get_fmap {V W} (F : V → W) (d : list (string * V)) k :
  dict_get (prod_map id F <$> d) k = F <$> dict_get d k.
Proof.
  induction d as [|[k' x] d IH]; simpl; [done|].
  by destruct (String.eqb k' k).
Qed.

Lemma dict_keys_fmap {V W} (F : V → W) (d : list (string * V)) :
  dict_keys (prod_map id F <$> d) = dict_keys d.
Proof.
  unfold dict_keys. induction d as [|[k' x] d IH]; [done|].
  cbn. f_equal. exact IH.
Qed.

(** What a limit of the exposure table resolves to does not change when
    its zeros are replaced by null. *)
Lemma limit_value_drop_zero (ppm mgm3 : pyval) :
  (if truthy (zero_to_None ppm) then Ok (Some (zero_to_None ppm, "ppm"))
   else if truthy (zero_to_None mgm3) then Ok (Some (zero_to_None mgm3, "mg/m^3"))
   else Ok None)
  = (if truthy ppm then Ok (Some (ppm, "ppm"))
     else if truthy mgm3 then Ok (Some (mgm3, "mg/m^3"))
     else Ok (None : option (pyval * string))).
Proof.
  rewrite !truthy_zero_to_None.
  destruct (truthy ppm) eqn:E1; [by rewrite zero_to_None_truthy|].
  destruct (truthy mgm3) eqn:E2; [by rewrite zero_to_None_truthy|done].
Qed.

Lemma limit_methods_drop_zero (ppm mgm3 : pyval) :
  truthy (py_or (zero_to_None ppm) (zero_to_None mgm3)) = truthy (py_or ppm mgm3).
Proof.
  unfold py_or. rewrite !truthy_zero_to_None.
  destruct (truthy ppm) eqn:E1; by rewrite truthy_zero_to_None.
Qed.

(** C9, as stated, fails for the flammability limits: with no estimator
    input, a chemical whose limit is tabulated as [0.0] gets the [0.0] back
    from [LFL] and [UFL]: no estimator runs, and the result is not the
    [None] of a chemical without data. *)
Lemma LFL_zero_without_inputs :
  retrieve_any_from_df_dict (LFL_sources Samples.zero_limit_data) "0-00-0" "LFL"
    = PFloat 0
  ∧ LFL Samples.zero_limit_data PNone None "0-00-0" PNone = Ok (PFloat 0)
  ∧ UFL Samples.zero_limit_data PNone None "0-00-0" PNone = Ok (PFloat 0)
  ∧ LFL Samples.no_data PNone None "0-00-0" PNone = Ok PNone
  ∧ UFL Samples.no_data PNone None "0-00-0" PNone = Ok PNone.
Proof. split_and!; by vm_compute. Qed.

(** C9, amended: [TWA], [STEL] and [Ceiling], and their methods queries,
    treat a stored zero as they treat null: their results do not change
    when every zero of the table is replaced by null, and they return
    [None] for a limit whose two stored values are zero or null.  For [LFL]
    and [UFL] a tabulated zero, although the tables have data, sends the
    call to the estimators: the estimate is returned when an estimator
    input is given ([Hc] truthy or [atoms] non-empty for [LFL], [Hc] or
    [atoms] not [None] for [UFL]); with none, the tabulated zero itself is
    returned. *)
Theorem zero_is_treated_as_absent :
  (∀ g CASRN method,
      TWA (drop_zero_limits g) CASRN method = TWA g CASRN method
      ∧ STEL (drop_zero_limits g) CASRN method = STEL g CASRN method
      ∧ Ceiling (drop_zero_limits g) CASRN method = Ceiling g CASRN method
      ∧ TWA_methods (drop_zero_limits g) CASRN = TWA_methods g CASRN
      ∧ STEL_methods (drop_zero_limits g) CASRN = STEL_methods g CASRN
      ∧ Ceiling_methods (drop_zero_limits g) CASRN = Ceiling_methods g CASRN)
  ∧ (∀ g CASRN data method,
      dict_get (Ontario_exposure_limits_dict g) CASRN = Some data →
      truthy method = false ∨ method = PStr ONTARIO →
      (zero_or_None (ol_TWA_ppm data) → zero_or_None (ol_TWA_mgm3 data) →
         TWA g CASRN method = Ok None)
      ∧ (zero_or_None (ol_STEL_ppm data) → zero_or_None (ol_STEL_mgm3 data) →
         STEL g CASRN method = Ok None)
      ∧ (zero_or_None (ol_Ceiling_ppm data) → zero_or_None (ol_Ceiling_mgm3 data) →
         Ceiling g CASRN method = Ok None))
  ∧ (∀ g Hc atoms CASRN,
      is_zero (retrieve_any_from_df_dict (LFL_sources g) CASRN "LFL") = true →
      list_available_methods_from_df_dict (LFL_sources g) CASRN "LFL" ≠ []
      ∧ (truthy Hc = true → LFL g Hc atoms CASRN PNone = Suzuki_LFL Hc)
      ∧ (truthy Hc = false → atoms_truthy atoms = true →
         LFL g Hc atoms CASRN PNone = Crowl_Louvar_LFL atoms)
      ∧ (truthy Hc = false → atoms_truthy atoms = false →
         LFL g Hc atoms CASRN PNone
           = Ok (retrieve_any_from_df_dict (LFL_sources g) CASRN "LFL")))
  ∧ (∀ g Hc atoms CASRN,
      is_zero (retrieve_any_from_df_dict (UFL_sources g) CASRN "UFL") = true →
      list_available_methods_from_df_dict (UFL_sources g) CASRN "UFL" ≠ []
      ∧ (is_not_None Hc = true → UFL g Hc atoms CASRN PNone = Suzuki_UFL Hc)
      ∧ (is_not_None Hc = false → atoms_is_not_None atoms = true →
         UFL g Hc atoms CASRN PNone = Crowl_Louvar_UFL atoms)
      ∧ (is_not_None Hc = false → atoms_is_not_None atoms = false →
         UFL g Hc atoms CASRN PNone
           = Ok (retrieve_any_from_df_dict (UFL_sources g) CASRN "UFL"))).
Proof.
  split_and!.
  - intros g c m. split_and!.
    + unfold TWA. cbn [drop_zero_limits Ontario_exposure_limits_dict].
      rewrite dict_get_fmap.
      destruct (negb (truthy m) || py_eq_str m ONTARIO); [|done].
      destruct (dict_get (Ontario_exposure_limits_dict g) c) as [data|]; [|done].
      exact (limit_value_drop_zero _ _).
    + unfold STEL. cbn [drop_zero_limits Ontario_exposure_limits_dict].
      rewrite dict_get_fmap.
      destruct (negb (truthy m) || py_eq_str m ONTARIO); [|done].
      destruct (dict_get (Ontario_exposure_limits_dict g) c) as [data|]; [|done].
      exact (limit_value_drop_zero _ _).
    + unfold Ceiling. cbn [drop_zero_limits Ontario_exposure_limits_dict].
      rewrite dict_get_fmap, dict_keys_fmap.
      destruct (negb (truthy m) || py_eq_str m ONTARIO); [|done].
      destruct (dict_get (Ontario_exposure_limits_dict g) c) as [data|]; [|done].
      exact (limit_value_drop_zero _ _).
    + unfold TWA_methods. cbn [drop_zero_limits Ontario_exposure_limits_dict].
      rewrite dict_get_fmap.
      destruct (dict_get (Ontario_exposure_limits_dict g) c) as [data|]; [|done].
      cbn. by rewrite limit_methods_drop_zero.
    + unfold STEL_methods. cbn [drop_zero_limits Ontario_exposure_limits_dict].
      rewrite dict_get_fmap.
      destruct (dict_get (Ontario_exposure_limits_dict g) c) as [data|]; [|done].
      cbn. by rewrite limit_methods_drop_zero.
    + unfold Ceiling_methods. cbn [drop_zero_limits Ontario_exposure_limits_dict].
      rewrite dict_get_fmap.
      destruct (dict_get (Ontario_exposure_limits_dict g) c) as [data|]; [|done].
      cbn. by rewrite limit_methods_drop_zero.
  - intros g c data m Hdata Hm.
    assert (negb (truthy m) || py_eq_str m ONTARIO = true) as Hb.
    { destruct Hm as [->| ->]; done. }
    split_and!; intros H1%zero_or_None_falsy H2%zero_or_None_falsy.
    + unfold TWA. by rewrite Hb, Hdata, H1, H2.
    + unfold STEL. by rewrite Hb, Hdata, H1, H2.
    + unfold Ceiling. by rewrite Hb, Hdata, H1, H2.
  - intros g Hc atoms c Hz. split_and!.
    + rewrite list_available_nil_iff. by apply is_zero_not_None.
    + intros HHc. rewrite LFL_default by done. cbn zeta.
      by rewrite (is_zero_falsy _ Hz), HHc.
    + intros HHc Hat. rewrite LFL_default by done. cbn zeta.
      by rewrite (is_zero_falsy _ Hz), HHc, Hat.
    + intros HHc Hat. rewrite LFL_default by done. cbn zeta.
      by rewrite (is_zero_falsy _ Hz), HHc, Hat.
  - intros g Hc atoms c Hz. split_and!.
    + rewrite list_available_nil_iff. by apply is_zero_not_None.
    + intros HHc. rewrite UFL_default by done. cbn zeta.
      by rewrite (is_zero_falsy _ Hz), HHc.
    + intros HHc Hat. rewrite UFL_default by done. cbn zeta.
      by rewrite (is_zero_falsy _ Hz), HHc, Hat.
    + intros HHc Hat. rewrite UFL_default by done. cbn zeta.
      by rewrite (is_zero_falsy _ Hz), HHc, Hat.
Qed.

Lemma zero_is_treated_as_absent_witness :
  TWA Samples.zero_limit_data "0-00-0" PNone = Ok None
  ∧ LFL Samples.zero_limit_data Samples.methane_Hc None "0-00-0" PNone
    = Suzuki_LFL Samples.methane_Hc
  ∧ UFL Samples.zero_limit_data PNone Samples.methane_atoms "0-00-0" PNone
    = Crowl_Louvar_UFL Samples.methane_atoms.
Proof.
  destruct zero_is_treated_as_absent as (_ & Ht & Hl & Hu).
  split_and!.
  - destruct (Ht Samples.zero_limit_data "0-00-0" Samples.zero_limits PNone)
      as (H & _); [by vm_compute|by left|].
    apply H; left; by vm_compute.
  - destruct (Hl Samples.zero_limit_data Samples.methane_Hc None "0-00-0")
      as (_ & H & _); [by vm_compute|].
    apply H. by vm_compute.
  - destruct (Hu Samples.zero_limit_data PNone Samples.methane_atoms "0-00-0")
      as (_ & _ & H & _); [by vm_compute|].
    apply H; by vm_compute.
Defined.

(** ** Falsy methods *)

(** No step of the default resolution raises the error of an invalid
    method. *)
Lemma bind_not_invalid {A B} (r : result A) (k : A → result B) :
  invalid_method r = false →
  (∀ a, invalid_method (k a) = false) →
  invalid_method (r ≫= k) = false.
Proof. destruct r as [a|e]; [intros _ H; exact (H a)|intros H _; exact H]. Qed.

Lemma float_of_int_not_invalid z : invalid_method (float_of_int z) = false.
Proof. unfold float_of_int. by destruct (is_infinity _). Qed.

Lemma to_float_not_invalid v : invalid_method (to_float v) = false.
Proof. destruct v; simpl; auto using float_of_int_not_invalid. Qed.

Lemma fdiv_not_invalid a b : invalid_method (fdiv a b) = false.
Proof. unfold fdiv. by destruct (b =? 0)%float. Qed.

Lemma Suzuki_LFL_not_invalid Hc : invalid_method (Suzuki_LFL Hc) = false.
Proof.
  unfold Suzuki_LFL.
  apply bind_not_invalid; [apply to_float_not_invalid|intros f].
  apply bind_not_invalid; [apply fdiv_not_invalid|by intros q].
Qed.

Lemma Suzuki_UFL_not_invalid Hc : invalid_method (Suzuki_UFL Hc) = false.
Proof.
  unfold Suzuki_UFL.
  apply bind_not_invalid; [apply to_float_not_invalid|by intros f].
Qed.

Lemma Crowl_Louvar_LFL_not_invalid atoms :
  invalid_method (Crowl_Louvar_LFL atoms) = false.
Proof.
  unfold Crowl_Louvar_LFL. destruct atoms as [atoms|]; [|done].
  destruct (atoms !! "C") as [c|]; [|done]. destruct (truthy c); [|done].
  repeat (apply bind_not_invalid;
          [first [apply to_float_not_invalid|apply fdiv_not_invalid]|intros ?]).
  done.
Qed.

Lemma Crowl_Louvar_UFL_not_invalid atoms :
  invalid_method (Crowl_Louvar_UFL atoms) = false.
Proof.
  unfold Crowl_Louvar_UFL. destruct atoms as [atoms|]; [|done].
  destruct (atoms !! "C") as [c|]; [|done]. destruct (truthy c); [|done].
  repeat (apply bind_not_invalid;
          [first [apply to_float_not_invalid|apply fdiv_not_invalid]|intros ?]).
  done.
Qed.

Lemma df_at_not_invalid df index column :
  invalid_method (df_at df index column) = false.
Proof.
  unfold df_at. destruct (df !! index) as [cells|]; [|done].
  by destruct (cells !! column).
Qed.

Lemma codes_get_not_invalid codes k : invalid_method (codes_get codes k) = false.
Proof.
  induction codes as [|[z s] codes IH]; simpl; [done|].
  by destruct (key_matches k z).
Qed.

Lemma IARC_status_not_invalid g CASRN :
  invalid_method (IARC_status g CASRN) = false.
Proof.
  apply bind_not_invalid; [apply df_at_not_invalid|intros ?].
  apply codes_get_not_invalid.
Qed.

Lemma NTP_status_not_invalid g CASRN :
  invalid_method (NTP_status g CASRN) = false.
Proof.
  apply bind_not_invalid; [apply df_at_not_invalid|intros ?].
  apply codes_get_not_invalid.
Qed.

(** C10: a falsy method (the empty string, [None], [False], a zero) is
    taken by every lookup function as no method at all: the result is that
    of the default resolution, and it is never the error of an invalid
    method. *)
Theorem falsy_method_is_default method :
  truthy method = false →
  (∀ g CASRN,
      TWA g CASRN method = TWA g CASRN PNone
      ∧ STEL g CASRN method = STEL g CASRN PNone
      ∧ Ceiling g CASRN method = Ceiling g CASRN PNone
      ∧ Skin g CASRN method = Skin g CASRN PNone
      ∧ Carcinogen g CASRN method = Carcinogen g CASRN PNone
      ∧ T_flash g CASRN method = T_flash g CASRN PNone
      ∧ T_autoignition g CASRN method = T_autoignition g CASRN PNone)
  ∧ (∀ g Hc atoms CASRN,
      LFL g Hc atoms CASRN method = LFL g Hc atoms CASRN PNone
      ∧ UFL g Hc atoms CASRN method = UFL g Hc atoms CASRN PNone)
  ∧ (∀ g CASRN get_methods,
      dipole_moment g CASRN get_methods method
        = dipole_moment g CASRN get_methods PNone)
  ∧ (∀ g CASRN,
      invalid_method (TWA g CASRN method) = false
      ∧ invalid_method (STEL g CASRN method) = false
      ∧ invalid_method (Ceiling g CASRN method) = false
      ∧ invalid_method (Skin g CASRN method) = false
      ∧ invalid_method (Carcinogen g CASRN method) = false
      ∧ invalid_method (T_flash g CASRN method) = false
      ∧ invalid_method (T_autoignition g CASRN method) = false)
  ∧ (∀ g Hc atoms CASRN,
      invalid_method (LFL g Hc atoms CASRN method) = false
      ∧ invalid_method (UFL g Hc atoms CASRN method) = false)
  ∧ (∀ g CASRN get_methods,
      invalid_method (dipole_moment g CASRN get_methods method) = false).
Proof.
  intros Hm. split_and!.
  - intros g c. split_and!.
    + unfold TWA. by rewrite Hm.
    + unfold STEL. by rewrite Hm.
    + unfold Ceiling. by rewrite Hm.
    + unfold Skin. by rewrite Hm.
    + unfold Carcinogen. by rewrite Hm.
    + unfold T_flash. by rewrite Hm.
    + unfold T_autoignition. by rewrite Hm.
  - intros g Hc atoms c. split.
    + by rewrite !LFL_default.
    + by rewrite !UFL_default.
  - intros g c gm. unfold dipole_moment. by rewrite Hm.
  - intros g c. split_and!.
    + unfold TWA. rewrite Hm. cbn [negb orb].
      destruct (dict_get (Ontario_exposure_limits_dict g) c) as [data|]; [|done].
      cbn zeta. by repeat destruct (truthy _).
    + unfold STEL. rewrite Hm. cbn [negb orb].
      destruct (dict_get (Ontario_exposure_limits_dict g) c) as [data|]; [|done].
      cbn zeta. by repeat destruct (truthy _).
    + unfold Ceiling. rewrite Hm. cbn [negb orb].
      destruct (dict_get (Ontario_exposure_limits_dict g) c) as [data|]; [|done].
      cbn zeta. by repeat destruct (truthy _).
    + unfold Skin. rewrite Hm. cbn [negb orb].
      by destruct (dict_get (Ontario_exposure_limits_dict g) c).
    + unfold Carcinogen. rewrite Hm. cbn [negb].
      apply bind_not_invalid;
        [destruct (in_index c (IARC_data g)); [apply IARC_status_not_invalid|done]|].
      intros iarc. apply bind_not_invalid; [|done].
      destruct (in_index c (NTP_data g)); [apply NTP_status_not_invalid|done].
    + unfold T_flash. by rewrite Hm.
    + unfold T_autoignition. by rewrite Hm.
  - intros g Hc atoms c. split.
    + rewrite LFL_default by done. cbn zeta.
      destruct (truthy (retrieve_any_from_df_dict _ _ _)); [done|].
      destruct (truthy Hc); [apply Suzuki_LFL_not_invalid|].
      destruct (atoms_truthy atoms); [apply Crowl_Louvar_LFL_not_invalid|done].
    + rewrite UFL_default by done. cbn zeta.
      destruct (truthy (retrieve_any_from_df_dict _ _ _)); [done|].
      destruct (is_not_None Hc); [apply Suzuki_UFL_not_invalid|].
      destruct (atoms_is_not_None atoms); [apply Crowl_Louvar_UFL_not_invalid|done].
  - intros g c gm. unfold dipole_moment. rewrite Hm. by destruct gm.
Qed.

Lemma falsy_method_is_default_witness :
  truthy (PStr "") = false
  ∧ TWA Samples.some_data "98-00-0" (PStr "") = Ok (Some (PFloat 10, "ppm"))
  ∧ T_flash Samples.some_data "64-17-5" (PStr "") = Ok (PFloat 285.15)
  ∧ dipole_moment Samples.ethanol_dipoles "64-17-5" false (PStr "")
    = Ok (Value (PFloat 1.44)).
Proof.
  assert (truthy (PStr "") = false) as Hm by reflexivity.
  destruct (falsy_method_is_default (PStr "") Hm) as (Hs & _ & Hd & _).
  split; [exact Hm|]. split_and!.
  - destruct (Hs Samples.some_data "98-00-0") as (-> & _). by vm_compute.
  - destruct (Hs Samples.some_data "64-17-5") as (_ & _ & _ & _ & _ & -> & _).
    by vm_compute.
  - rewrite (Hd Samples.ethanol_dipoles "64-17-5" false). by vm_compute.
Defined.

(** * Further properties of chemicals/safety.py *)

(** ** Carcinogen listings *)

Lemma codes_get_Ok codes k s : codes_get codes k = Ok s → s ∈ codes.*2.
Proof.
  induction codes as [|[z s'] codes IH]; simpl; [done|].
  destruct (key_matches k z).
  - intros [= ->]. apply elem_of_cons. by left.
  - intros H. apply elem_of_cons. right. by apply IH.
Qed.

Lemma codes_get_Raise codes k e : codes_get codes k = Raise e → e = KeyError.
Proof.
  induction codes as [|[z s'] codes IH]; simpl; [by intros [= <-]|].
  by destruct (key_matches k z).
Qed.

Lemma df_at_Raise df index column e : df_at df index column = Raise e → e = KeyError.
Proof.
  unfold df_at. destruct (df !! index) as [cells|]; [|by intros [= <-]].
  destruct (cells !! column); [done|by intros [= <-]].
Qed.

Lemma status_Ok df index column codes s :
  (group ← df_at df index column; codes_get codes group) = Ok s → s ∈ codes.*2.
Proof.
  destruct (df_at df index column) as [v|e] eqn:E; [|done].
  apply codes_get_Ok.
Qed.

Lemma status_Raise df index column codes e :
  (group ← df_at df index column; codes_get codes group) = Raise e → e = KeyError.
Proof.
  destruct (df_at df index column) as [v|e'] eqn:E.
  - apply codes_get_Raise.
  - intros [= <-]. by apply df_at_Raise in E.
Qed.

(** X1: what [Carcinogen] reports with no method is what it reports, source
    by source, with each of its two methods: the dict holds the status [a]
    for IARC and [b] for NTP exactly when the method IARC gives [a] and the
    method NTP gives [b]; so the call with no method raises exactly when one
    of the two others does. *)
Theorem Carcinogen_default_agrees_with_methods g CASRN :
  (∀ a b,
      Carcinogen g CASRN PNone = Ok (Statuses [ (IARC, a); (NTP, b) ]) ↔
      Carcinogen g CASRN (PStr IARC) = Ok (Status a)
      ∧ Carcinogen g CASRN (PStr NTP) = Ok (Status b))
  ∧ (∀ r, Carcinogen g CASRN PNone = Ok r →
          ∃ a b, r = Statuses [ (IARC, a); (NTP, b) ])
  ∧ ((∃ e, Carcinogen g CASRN PNone = Raise e) ↔
     (∃ e, Carcinogen g CASRN (PStr IARC) = Raise e)
     ∨ (∃ e, Carcinogen g CASRN (PStr NTP) = Raise e)).
Proof.
  unfold Carcinogen.
  change (truthy PNone) with false.
  change (truthy (PStr IARC)) with true. change (truthy (PStr NTP)) with true.
  change (py_eq_str (PStr IARC) IARC) with true.
  change (py_eq_str (PStr NTP) IARC) with false.
  change (py_eq_str (PStr NTP) NTP) with true.
  cbn [negb].
  destruct (in_index CASRN (IARC_data g)), (in_index CASRN (NTP_data g));
    try destruct (IARC_status g CASRN) as [x|ex];
    try destruct (NTP_status g CASRN) as [y|ey];
    cbn; (split_and!;
          [ intros a b; split; intros; destruct_and?; by simplify_eq
          | intros r ?; simplify_eq; eauto
          | split; [intros [e ?]|intros [[e ?]|[e ?]]]; simplify_eq; eauto ]).
Qed.

Lemma UNLISTED_not_an_IARC_code : UNLISTED ∉ IARC_codes.*2.
Proof. apply (bool_decide_unpack _). by vm_compute. Qed.

Lemma UNLISTED_not_an_NTP_code : UNLISTED ∉ NTP_codes.*2.
Proof. apply (bool_decide_unpack _). by vm_compute. Qed.

(** X2: with the method IARC (or NTP), a chemical out of the table is
    'Unlisted'; for a chemical in the table the call either returns one of
    the descriptions of [IARC_codes] (of [NTP_codes]), never 'Unlisted', or
    raises [KeyError] (a code that is no key, a column that is not
    there). *)
Theorem Carcinogen_status_range g CASRN :
  (in_index CASRN (IARC_data g) = false →
     Carcinogen g CASRN (PStr IARC) = Ok (Status UNLISTED))
  ∧ (in_index CASRN (NTP_data g) = false →
     Carcinogen g CASRN (PStr NTP) = Ok (Status UNLISTED))
  ∧ (in_index CASRN (IARC_data g) = true →
     Carcinogen g CASRN (PStr IARC) = Raise KeyError
     ∨ ∃ s, Carcinogen g CASRN (PStr IARC) = Ok (Status s)
            ∧ s ∈ IARC_codes.*2 ∧ s ≠ UNLISTED)
  ∧ (in_index CASRN (NTP_data g) = true →
     Carcinogen g CASRN (PStr NTP) = Raise KeyError
     ∨ ∃ s, Carcinogen g CASRN (PStr NTP) = Ok (Status s)
            ∧ s ∈ NTP_codes.*2 ∧ s ≠ UNLISTED).
Proof.
  unfold Carcinogen.
  change (truthy (PStr IARC)) with true. change (truthy (PStr NTP)) with true.
  change (py_eq_str (PStr IARC) IARC) with true.
  change (py_eq_str (PStr NTP) IARC) with false.
  change (py_eq_str (PStr NTP) NTP) with true.
  cbn [negb].
  split_and!.
  - by intros ->.
  - by intros ->.
  - intros ->. unfold IARC_status.
    destruct (_ ← df_at _ _ _; codes_get _ _) as [s|e] eqn:E.
    + right. exists s. split; [done|]. apply status_Ok in E. split; [done|].
      intros ->. by apply UNLISTED_not_an_IARC_code.
    + left. apply status_Raise in E. by subst.
  - intros ->. unfold NTP_status.
    destruct (_ ← df_at _ _ _; codes_get _ _) as [s|e] eqn:E.
    + right. exists s. split; [done|]. apply status_Ok in E. split; [done|].
      intros ->. by apply UNLISTED_not_an_NTP_code.
    + left. apply status_Raise in E. by subst.
Qed.

Lemma Carcinogen_status_range_witness :
  Carcinogen Samples.some_data "61-82-5" (PStr NTP) = Ok (Status "Reasonably Anticipated")
  ∧ Carcinogen Samples.some_data "64-17-5" (PStr IARC) = Ok (Status "Unlisted").
Proof.
  destruct (Carcinogen_status_range Samples.some_data "61-82-5") as (_ & _ & _ & H).
  destruct (Carcinogen_status_range Samples.some_data "64-17-5") as (H' & _).
  split.
  - clear H'. destruct H as [H|(s & H & _)]; [by vm_compute|revert H; by vm_compute|].
    revert H. vm_compute. by intros [= <-].
  - apply H'. by vm_compute.
Defined.

(** ** Exposure limits *)

Ltac limit_cases g CASRN :=
  destruct (dict_get (Ontario_exposure_limits_dict g) CASRN) as [data|];
  cbn zeta; repeat destruct (truthy _); try done.

(** X3: whether a lookup of the exposure limits or of the carcinogen
    listings refuses its method depends on the method alone, not on the
    chemical or on the tables: it raises the error of an invalid method
    exactly when the method is truthy and is none of the property's method
    names, and the limits raise nothing else. *)
Theorem invalid_method_exactly g CASRN method :
  invalid_method (TWA g CASRN method)
    = truthy method && negb (py_eq_str method ONTARIO)
  ∧ invalid_method (STEL g CASRN method)
    = truthy method && negb (py_eq_str method ONTARIO)
  ∧ invalid_method (Ceiling g CASRN method)
    = truthy method && negb (py_eq_str method ONTARIO)
  ∧ invalid_method (Skin g CASRN method)
    = truthy method && negb (py_eq_str method ONTARIO)
  ∧ invalid_method (Carcinogen g CASRN method)
    = truthy method && negb (py_eq_str method IARC) && negb (py_eq_str method NTP)
  ∧ (∀ e, TWA g CASRN method = Raise e → e = ValueError method [ONTARIO])
  ∧ (∀ e, STEL g CASRN method = Raise e → e = ValueError method [ONTARIO])
  ∧ (∀ e, Skin g CASRN method = Raise e → e = ValueError method [ONTARIO]).
Proof.
  split_and!.
  - unfold TWA. destruct (truthy method), (py_eq_str method ONTARIO);
      cbn [negb orb andb]; limit_cases g CASRN.
  - unfold STEL. destruct (truthy method), (py_eq_str method ONTARIO);
      cbn [negb orb andb]; limit_cases g CASRN.
  - unfold Ceiling. destruct (truthy method), (py_eq_str method ONTARIO);
      cbn [negb orb andb]; limit_cases g CASRN.
  - unfold Skin. destruct (truthy method), (py_eq_str method ONTARIO);
      cbn [negb orb andb]; limit_cases g CASRN.
  - unfold Carcinogen. destruct (truthy method); cbn [negb andb].
    + destruct (py_eq_str method IARC); cbn [negb andb].
      { destruct (in_index CASRN (IARC_data g)); [|done].
        apply bind_not_invalid; [apply IARC_status_not_invalid|done]. }
      destruct (py_eq_str method NTP); cbn [negb]; [|done].
      destruct (in_index CASRN (NTP_data g)); [|done].
      apply bind_not_invalid; [apply NTP_status_not_invalid|done].
    + apply bind_not_invalid;
        [destruct (in_index CASRN (IARC_data g)); [apply IARC_status_not_invalid|done]|].
      intros iarc. apply bind_not_invalid; [|done].
      destruct (in_index CASRN (NTP_data g)); [apply NTP_status_not_invalid|done].
  - intros e. unfold TWA. destruct (negb (truthy method) || py_eq_str method ONTARIO);
      [limit_cases g CASRN|by intros [= <-]].
  - intros e. unfold STEL. destruct (negb (truthy method) || py_eq_str method ONTARIO);
      [limit_cases g CASRN|by intros [= <-]].
  - intros e. unfold Skin. destruct (negb (truthy method) || py_eq_str method ONTARIO);
      [limit_cases g CASRN|by intros [= <-]].
Qed.

(** X4: a limit that [TWA], [STEL] or [Ceiling] returns is never zero or
    null: it is a truthy number stored for the chemical, the one in ppm
    whenever that one is truthy, the one in mg/m^3 only otherwise, with the
    unit it is stored under. *)
Theorem returned_limit_is_stored g CASRN method v u :
  (TWA g CASRN method = Ok (Some (v, u)) →
     truthy v = true
     ∧ ∃ data, dict_get (Ontario_exposure_limits_dict g) CASRN = Some data
        ∧ (u = "ppm" ∧ v = ol_TWA_ppm data
           ∨ u = "mg/m^3" ∧ v = ol_TWA_mgm3 data ∧ truthy (ol_TWA_ppm data) = false))
  ∧ (STEL g CASRN method = Ok (Some (v, u)) →
     truthy v = true
     ∧ ∃ data, dict_get (Ontario_exposure_limits_dict g) CASRN = Some data
        ∧ (u = "ppm" ∧ v = ol_STEL_ppm data
           ∨ u = "mg/m^3" ∧ v = ol_STEL_mgm3 data ∧ truthy (ol_STEL_ppm data) = false))
  ∧ (Ceiling g CASRN method = Ok (Some (v, u)) →
     truthy v = true
     ∧ ∃ data, dict_get (Ontario_exposure_limits_dict g) CASRN = Some data
        ∧ (u = "ppm" ∧ v = ol_Ceiling_ppm data
           ∨ u = "mg/m^3" ∧ v = ol_Ceiling_mgm3 data
             ∧ truthy (ol_Ceiling_ppm data) = false)).
Proof.
  split_and!.
  - unfold TWA. destruct (negb (truthy method) || py_eq_str method ONTARIO); [|done].
    destruct (dict_get (Ontario_exposure_limits_dict g) CASRN) as [data|]; [|done].
    cbn zeta. destruct (truthy (ol_TWA_ppm data)) eqn:E1.
    { intros [= <- <-]. eauto 10. }
    destruct (truthy (ol_TWA_mgm3 data)) eqn:E2; [|done].
    intros [= <- <-]. eauto 10.
  - unfold STEL. destruct (negb (truthy method) || py_eq_str method ONTARIO); [|done].
    destruct (dict_get (Ontario_exposure_limits_dict g) CASRN) as [data|]; [|done].
    cbn zeta. destruct (truthy (ol_STEL_ppm data)) eqn:E1.
    { intros [= <- <-]. eauto 10. }
    destruct (truthy (ol_STEL_mgm3 data)) eqn:E2; [|done].
    intros [= <- <-]. eauto 10.
  - unfold Ceiling. destruct (negb (truthy method) || py_eq_str method ONTARIO); [|done].
    destruct (dict_get (Ontario_exposure_limits_dict g) CASRN) as [data|]; [|done].
    cbn zeta. destruct (truthy (ol_Ceiling_ppm data)) eqn:E1.
    { intros [= <- <-]. eauto 10. }
    destruct (truthy (ol_Ceiling_mgm3 data)) eqn:E2; [|done].
    intros [= <- <-]. eauto 10.
Qed.

Lemma returned_limit_is_stored_witness :
  TWA Samples.some_data "98-00-0" PNone = Ok (Some (PFloat 10, "ppm"))
  ∧ truthy (PFloat 10) = true.
Proof.
  assert (TWA Samples.some_data "98-00-0" PNone = Ok (Some (PFloat 10, "ppm"))) as H
    by (by vm_compute).
  split; [exact H|].
  destruct (returned_limit_is_stored Samples.some_data "98-00-0" PNone (PFloat 10) "ppm")
    as (Ht & _).
  exact (proj1 (Ht H)).
Defined.

(** ** Estimators *)

(** X5: the Crowl-Louvar estimators read the counts of C, H and O and
    nothing else: a count of any other atom changes neither result, and a
    count of H or of O that is left out counts as zero. *)
Theorem Crowl_Louvar_reads_C_H_O (atoms : gmap string pyval) :
  (∀ k v, k ≠ "C" → k ≠ "H" → k ≠ "O" →
     Crowl_Louvar_LFL (Some (<[k:=v]> atoms)) = Crowl_Louvar_LFL (Some atoms)
     ∧ Crowl_Louvar_UFL (Some (<[k:=v]> atoms)) = Crowl_Louvar_UFL (Some atoms))
  ∧ (atoms !! "H" = None →
     Crowl_Louvar_LFL (Some (<["H":=PInt 0]> atoms)) = Crowl_Louvar_LFL (Some atoms)
     ∧ Crowl_Louvar_UFL (Some (<["H":=PInt 0]> atoms)) = Crowl_Louvar_UFL (Some atoms))
  ∧ (atoms !! "O" = None →
     Crowl_Louvar_LFL (Some (<["O":=PInt 0]> atoms)) = Crowl_Louvar_LFL (Some atoms)
     ∧ Crowl_Louvar_UFL (Some (<["O":=PInt 0]> atoms)) = Crowl_Louvar_UFL (Some atoms)).
Proof.
  unfold Crowl_Louvar_LFL, Crowl_Louvar_UFL. split_and!.
  - intros k v HC HH HO. by rewrite !lookup_insert_ne.
  - intros HH. rewrite lookup_insert_eq, HH.
    by rewrite !(lookup_insert_ne atoms "H") by done.
  - intros HO. rewrite lookup_insert_eq, HO.
    by rewrite !(lookup_insert_ne atoms "O") by done.
Qed.

Lemma Crowl_Louvar_reads_C_H_O_witness :
  Crowl_Louvar_LFL (Some (<["N":=PInt 2]> {[ "C" := PInt 6; "H" := PInt 14 ]}))
  = Ok (PFloat 0.011899610558199915).
Proof.
  destruct (Crowl_Louvar_reads_C_H_O {[ "C" := PInt 6; "H" := PInt 14 ]}) as (H & _).
  destruct (H "N" (PInt 2)) as (-> & _); by vm_compute.
Defined.

(** X6: the two Crowl-Louvar estimators have one domain: they return
    [None] on the same inputs, those without a truthy count of C, and raise
    on the same inputs, with the same exception. *)
Theorem Crowl_Louvar_same_domain atoms :
  (Crowl_Louvar_LFL atoms = Ok PNone ↔ Crowl_Louvar_UFL atoms = Ok PNone)
  ∧ (∀ e, Crowl_Louvar_LFL atoms = Raise e ↔ Crowl_Louvar_UFL atoms = Raise e)
  ∧ (Crowl_Louvar_LFL atoms = Ok PNone ↔
     ∃ m, atoms = Some m ∧ truthy (default PNone (m !! "C")) = false).
Proof.
  unfold Crowl_Louvar_LFL, Crowl_Louvar_UFL.
  destruct atoms as [m|]; [|split_and!; [done|done|split; [done|by intros (? & ? & ?)]]].
  destruct (m !! "C") as [c|] eqn:EC; cbn [default];
    [|split_and!; [done|done|split; [intros _; exists m; by rewrite EC|done]]].
  destruct (truthy c) eqn:Ec; [|split_and!; [done|done|split; [intros _; exists m; by rewrite EC|done]]].
  assert (∀ r : result pyval,
             (r = Ok PNone ↔ ∃ m0, Some m = Some m0
                            ∧ truthy (default PNone (m0 !! "C")) = false)
             ↔ r ≠ Ok PNone) as Hshape.
  { intros r. split.
    - intros H Hr. apply H in Hr as (m0 & [= <-] & H0). rewrite EC in H0.
      cbn in H0. congruence.
    - intros Hr. split; [done|]. intros (m0 & [= <-] & H0). rewrite EC in H0.
      cbn in H0. congruence. }
  destruct (to_float c) as [nC|e1]; cbn;
    [|split_and!; [done|done|by apply Hshape]].
  destruct (to_float (default (PInt 0) (m !! "H"))) as [nH|e2]; cbn;
    [|split_and!; [done|done|by apply Hshape]].
  destruct (to_float (default (PInt 0) (m !! "O"))) as [nO|e3]; cbn;
    [|split_and!; [done|done|by apply Hshape]].
  unfold fdiv. destruct (_ =? 0)%float; cbn;
    split_and!; [done|done|by apply Hshape|done|done|by apply Hshape].
Qed.

(** X7: a method that names an estimator never looks at the tables or at
    the chemical: the result is the estimator's on the input given, and
    with that input left out the call raises, whatever is tabulated. *)
Theorem explicit_estimator_ignores_tables g g' Hc Hc' atoms atoms' CASRN CASRN' :
  LFL g Hc atoms CASRN (PStr SUZUKI) = LFL g' Hc atoms' CASRN' (PStr SUZUKI)
  ∧ LFL g Hc atoms CASRN (PStr CROWLLOUVAR)
    = LFL g' Hc' atoms CASRN' (PStr CROWLLOUVAR)
  ∧ UFL g Hc atoms CASRN (PStr SUZUKI) = UFL g' Hc atoms' CASRN' (PStr SUZUKI)
  ∧ UFL g Hc atoms CASRN (PStr CROWLLOUVAR)
    = UFL g' Hc' atoms CASRN' (PStr CROWLLOUVAR)
  ∧ LFL g PNone atoms CASRN (PStr SUZUKI) = Raise TypeError
  ∧ UFL g PNone atoms CASRN (PStr SUZUKI) = Raise TypeError
  ∧ LFL g Hc None CASRN (PStr CROWLLOUVAR) = Raise TypeError
  ∧ UFL g Hc None CASRN (PStr CROWLLOUVAR) = Raise TypeError.
Proof. by split_and!. Qed.

(** A float that compares equal to zero is one of the two zeros. *)
Lemma float_eqb_zero f : (f =? 0)%float = true → f = 0%float ∨ f = (-0)%float.
Proof.
  rewrite FloatAxioms.eqb_spec. intros H. rewrite <- (SF2Prim_Prim2SF f).
  destruct (Prim2SF f) as [[|]|[|]| |[|] m e]; try discriminate H.
  - by right.
  - by left.
Qed.

Lemma Suzuki_LFL_of_falsy Hc :
  truthy Hc = false → is_not_None Hc = true →
  Suzuki_LFL Hc = Raise ZeroDivisionError ∨ Suzuki_LFL Hc = Raise TypeError.
Proof.
  destruct Hc as [|[|]|z|f|s]; simpl; try done.
  - intros _ _. by left.
  - intros Hz _. apply negb_false_iff, Z.eqb_eq in Hz as ->. by left.
  - intros Hf _. apply negb_false_iff, float_eqb_zero in Hf as [-> | ->]; by left.
  - intros _ _. by right.
Qed.

(** X8: a heat of combustion that is given but falsy (a zero) is listed as
    usable by both methods queries; [LFL] with no method takes it as not
    given, and with the method Suzuki raises on it, while [UFL] with no
    method and nothing truthy tabulated does estimate from it. *)
Theorem falsy_heat_of_combustion g Hc atoms CASRN :
  truthy Hc = false →
  is_not_None Hc = true →
  SUZUKI ∈ LFL_methods g Hc atoms CASRN
  ∧ SUZUKI ∈ UFL_methods g Hc atoms CASRN
  ∧ LFL g Hc atoms CASRN PNone = LFL g PNone atoms CASRN PNone
  ∧ (LFL g Hc atoms CASRN (PStr SUZUKI) = Raise ZeroDivisionError
     ∨ LFL g Hc atoms CASRN (PStr SUZUKI) = Raise TypeError)
  ∧ (truthy (retrieve_any_from_df_dict (UFL_sources g) CASRN "UFL") = false →
     UFL g Hc atoms CASRN PNone = Suzuki_UFL Hc).
Proof.
  intros Hf Hn. split_and!.
  - unfold LFL_methods. rewrite Hn.
    destruct (atoms_is_not_None atoms); rewrite !elem_of_app, !list_elem_of_singleton;
      auto.
  - unfold UFL_methods. rewrite Hn.
    destruct (atoms_is_not_None atoms); rewrite !elem_of_app, !list_elem_of_singleton;
      auto.
  - rewrite !LFL_default by done. cbn zeta. by rewrite Hf.
  - change (LFL g Hc atoms CASRN (PStr SUZUKI)) with (Suzuki_LFL Hc).
    by apply Suzuki_LFL_of_falsy.
  - intros Hv. rewrite UFL_default by done. cbn zeta. by rewrite Hv, Hn.
Qed.

Lemma falsy_heat_of_combustion_witness :
  LFL Samples.no_data (PFloat 0) None "74-82-8" PNone = Ok PNone
  ∧ UFL Samples.no_data (PFloat 0) None "74-82-8" PNone = Ok (PFloat 0.235).
Proof.
  destruct (falsy_heat_of_combustion Samples.no_data (PFloat 0) None "74-82-8")
    as (_ & _ & Hl & _ & Hu); [done|done|].
  split; [rewrite Hl; by vm_compute|rewrite Hu; by vm_compute].
Defined.

(** ** Mixtures *)

Lemma fire_mixing_terms_nil_r ys : fire_mixing_terms ys [] = Ok [].
Proof. by destruct ys. Qed.

Lemma fire_mixing_terms_take ys FLs :
  fire_mixing_terms (take (length FLs) ys) (take (length ys) FLs)
  = fire_mixing_terms ys FLs.
Proof.
  revert FLs. induction ys as [|y ys IH]; intros [|FL FLs]; cbn; [done..|].
  by rewrite IH.
Qed.

Lemma fire_mixing_terms_app ys FLs extra extra' :
  length ys = length FLs →
  (extra = [] ∨ extra' = []) →
  fire_mixing_terms (ys ++ extra) (FLs ++ extra') = fire_mixing_terms ys FLs.
Proof.
  revert FLs. induction ys as [|y ys IH]; intros [|FL FLs] Hlen Hex; try done.
  - cbn. destruct Hex as [-> | ->]; [done|apply fire_mixing_terms_nil_r].
  - cbn. rewrite IH; [done|by injection Hlen|done].
Qed.

(** X9: [fire_mixing] pairs the fractions with the limits and looks at
    the pairs alone: the entries of the longer list that have no partner
    are ignored, without an error. *)
Theorem fire_mixing_pairs ys FLs :
  fire_mixing ys FLs = fire_mixing (take (length FLs) ys) (take (length ys) FLs)
  ∧ (length ys = length FLs →
     ∀ extra, fire_mixing (ys ++ extra) FLs = fire_mixing ys FLs
              ∧ fire_mixing ys (FLs ++ extra) = fire_mixing ys FLs).
Proof.
  unfold fire_mixing. split.
  - by rewrite fire_mixing_terms_take.
  - intros Hlen extra. split.
    + rewrite <- (app_nil_r FLs) at 1. rewrite fire_mixing_terms_app; auto.
    + rewrite <- (app_nil_r ys) at 1. rewrite fire_mixing_terms_app; auto.
Qed.

Lemma fire_mixing_pairs_witness :
  fire_mixing [1; 2]%float [0.5]%float = Ok 0.5%float.
Proof.
  destruct (fire_mixing_pairs [1]%float [0.5]%float) as (_ & H).
  destruct (H eq_refl [2]%float) as (Heq & _). cbn [app] in Heq.
  rewrite Heq. by vm_compute.
Defined.

(** The quotients, when no paired limit is zero. *)
Lemma fire_mixing_terms_spec ys FLs :
  fire_mixing_terms ys FLs =
    if existsb (λ p, p.2 =? 0)%float (zip ys FLs)
    then Raise ZeroDivisionError
    else Ok (zip_with PrimFloat.div ys FLs).
Proof.
  revert FLs. induction ys as [|y ys IH]; intros [|FL FLs]; cbn; [done..|].
  unfold fdiv. destruct (FL =? 0)%float; cbn; [done|].
  rewrite IH. by destruct (existsb _ _).
Qed.

(** X10: [fire_mixing] raises [ZeroDivisionError], and nothing else,
    exactly when a paired limit is zero or the quotients sum to zero; so it
    raises when one of the two lists is empty. *)
Theorem fire_mixing_errors ys FLs :
  (∀ e, fire_mixing ys FLs = Raise e → e = ZeroDivisionError)
  ∧ (fire_mixing ys FLs = Raise ZeroDivisionError ↔
     existsb (λ p, p.2 =? 0)%float (zip ys FLs) = true
     ∨ (py_sum (zip_with PrimFloat.div ys FLs) =? 0)%float = true)
  ∧ fire_mixing [] FLs = Raise ZeroDivisionError
  ∧ fire_mixing ys [] = Raise ZeroDivisionError.
Proof.
  unfold fire_mixing. rewrite fire_mixing_terms_spec. split_and!.
  - intros e. destruct (existsb _ _); cbn; [by intros [= <-]|].
    unfold fdiv. destruct (_ =? 0)%float; [by intros [= <-]|done].
  - destruct (existsb _ _); cbn; [split; [by left|done]|].
    unfold fdiv.
    destruct (_ =? 0)%float; (split; [intros H|intros [H|H]]); try done.
    by right.
  - done.
  - rewrite fire_mixing_terms_nil_r. done.
Qed.

(** * Loading *)

(** X11: the tables of safety.py are loaded at most once, by the first
    lookup that needs them, and the flag says whether they are: in every
    state the module can reach, a lookup that starts with the latch line
    returns what it returns on the tables of the files, and leaves the
    module loaded. *)
Theorem safety_tables_loaded_once PY37 files st :
  safety_reachable PY37 files st →
  (safety_loads st ≤ 1)%nat
  ∧ (_safety_data_loaded st = true ↔ safety_globals st = Some files)
  ∧ (PY37 = false → safety_globals st = Some files)
  ∧ (∀ A (body : safety_data → A),
       (latched files body st).1 = Returned (body files)
       ∧ _safety_data_loaded (latched files body st).2 = true
       ∧ safety_loads (latched files body st).2 = 1)
  ∧ (∀ CASRN method,
       (call_TWA files CASRN method st).1 = Returned (TWA files CASRN method)
       ∧ (call_Carcinogen files CASRN method st).1
         = Returned (Carcinogen files CASRN method)
       ∧ (call_T_flash files CASRN method st).1
         = Returned (T_flash files CASRN method))
  ∧ (∀ Hc atoms CASRN method,
       (call_LFL files Hc atoms CASRN method st).1
         = Returned (LFL files Hc atoms CASRN method)
       ∧ (call_UFL_methods files Hc atoms CASRN st).1
         = Returned (UFL_methods files Hc atoms CASRN)).
Proof.
  intros Hr.
  pose proof (λ A body, latched_from_reachable PY37 files st (A:=A) body Hr)
    as Hlatched.
  split_and!.
  - destruct (safety_reachable_inv _ _ _ Hr) as [(_ & _ & ->)|(_ & _ & _ & ->)]; lia.
  - destruct (safety_reachable_inv _ _ _ Hr) as [(Hl & Hg & _)|(_ & Hl & Hg & _)];
      rewrite Hl, Hg; by split.
  - intros ->.
    by destruct (safety_reachable_inv _ _ _ Hr) as [(_ & Hg & _)|(? & _)].
  - exact Hlatched.
  - intros CASRN method. split_and!; apply Hlatched.
  - intros Hc atoms CASRN method. split_and!; apply Hlatched.
Qed.

Lemma safety_tables_loaded_once_witness :
  (call_TWA Samples.some_data "98-00-0" PNone
     (import_safety true Samples.some_data)).1
  = Returned (Ok (Some (PFloat 10, "ppm"))).
Proof.
  destruct (safety_tables_loaded_once true Samples.some_data
              (import_safety true Samples.some_data) (reach_import _ _))
    as (_ & _ & _ & _ & H & _).
  destruct (H "98-00-0" PNone) as (-> & _). by vm_compute.
Defined.

(** X12: [Skin_methods] has no latch line: in a module that loads lazily
    and has not loaded yet it raises [NameError], where every other lookup
    loads the tables; it never loads them itself, and once another lookup
    has run it returns what it returns on the tables of the files. *)
Theorem Skin_methods_before_the_load files CASRN :
  call_Skin_methods CASRN (import_safety true files)
    = (NameError, import_safety true files)
  ∧ (∀ PY37 st,
       safety_reachable PY37 files st →
       ((call_Skin_methods CASRN st).1 = NameError ↔ _safety_data_loaded st = false)
       ∧ (_safety_data_loaded st = true →
          (call_Skin_methods CASRN st).1 = Returned (Skin_methods files CASRN))
       ∧ (call_Skin_methods CASRN st).2 = st)
  ∧ (∀ st,
       safety_reachable false files st →
       (call_Skin_methods CASRN st).1 = Returned (Skin_methods files CASRN))
  ∧ (∀ PY37 st method,
       safety_reachable PY37 files st →
       (call_Skin_methods CASRN (call_Skin files CASRN method st).2).1
       = Returned (Skin_methods files CASRN)).
Proof.
  split_and!.
  - done.
  - intros PY37 st Hr. unfold call_Skin_methods, unlatched. cbn [fst snd].
    destruct (safety_reachable_inv _ _ _ Hr) as [(Hl & Hg & _)|(_ & Hl & Hg & _)];
      rewrite Hl, Hg; by split_and!.
  - intros st Hr. unfold call_Skin_methods, unlatched. cbn [fst snd].
    by destruct (safety_reachable_inv _ _ _ Hr) as [(_ & -> & _)|(? & _)].
  - intros PY37 st method Hr. unfold call_Skin_methods, unlatched. cbn [fst snd].
    assert (safety_reachable PY37 files (call_Skin files CASRN method st).2) as Hr'
      by apply reach_latched, Hr.
    destruct (latched_from_reachable PY37 files st (λ g, Skin g CASRN method) Hr)
      as (_ & Hl & _).
    destruct (safety_reachable_inv _ _ _ Hr') as [(_ & -> & _)|(_ & Hl' & _)]; [done|].
    unfold call_Skin in Hl'. congruence.
Qed.

Lemma Skin_methods_before_the_load_witness :
  (call_Skin_methods "98-00-0" (import_safety true Samples.some_data)).1 = NameError
  ∧ (call_Skin_methods "98-00-0"
       (call_Skin Samples.some_data "98-00-0" PNone
          (import_safety true Samples.some_data)).2).1
    = Returned ["Ontario Limits"].
Proof.
  destruct (Skin_methods_before_the_load Samples.some_data "98-00-0")
    as (H0 & _ & _ & H).
  split; [by rewrite H0|].
  rewrite (H true _ PNone (reach_import _ _)). by vm_compute.
Defined.

Lemma getattr_each_loaded PY37 files names :
  Forall (λ name, name ∈ safety_all) names →
  getattr_each PY37 files names (safety_loaded files) = (Bound, safety_loaded files).
Proof.
  induction 1 as [|name names Hin _ IH]; cbn [getattr_each]; [done|].
  unfold module_getattr. rewrite (bool_decide_eq_true_2 _ Hin). cbn [negb].
  destruct (negb (bool_decide (name ∈ table_names))); exact IH.
Qed.

(** X13: [NTP_data] and [IARC_data] are names of [__all__] that the module
    [__getattr__] does not answer: before the load, reading either raises
    [AttributeError]; [from chemicals.safety import *] succeeds all the
    same, because [NFPA_2008_data], which loads everything, comes before
    them in [__all__]; once the tables are loaded every name of [__all__]
    is bound. *)
Theorem import_star_binds_every_name files :
  (∀ PY37, import_star PY37 files (import_safety PY37 files)
           = (Bound, safety_loaded files))
  ∧ module_getattr true files "NTP_data" (import_safety true files)
    = (AttributeError, import_safety true files)
  ∧ module_getattr true files "IARC_data" (import_safety true files)
    = (AttributeError, import_safety true files)
  ∧ (∀ name, name ∈ lazy_names →
       module_getattr true files name (import_safety true files)
       = (Bound, safety_loaded files))
  ∧ (∀ PY37 name st,
       safety_reachable PY37 files st →
       name ∈ safety_all →
       _safety_data_loaded st = true →
       module_getattr PY37 files name st = (Bound, st)).
Proof.
  assert (Forall (λ name, name ∈ safety_all) safety_all) as Hall
    by (apply Forall_forall; auto).
  split_and!.
  - intros [|]; unfold import_star.
    + unfold safety_all at 1. do 2 apply Forall_cons_1 in Hall as [_ Hall].
      apply Forall_cons_1 in Hall as [_ Hall].
      exact (getattr_each_loaded true files _ Hall).
    + exact (getattr_each_loaded false files _ Hall).
  - done.
  - done.
  - intros name Hin. unfold module_getattr.
    assert (name ∈ safety_all ∧ name ∈ table_names) as [H1 H2].
    { unfold lazy_names in Hin. rewrite !elem_of_cons, elem_of_nil in Hin.
      destruct Hin as [->|[->|[->|[->|[]]]]];
        split; apply (bool_decide_unpack _); by vm_compute. }
    rewrite (bool_decide_eq_true_2 _ H1), (bool_decide_eq_true_2 _ H2).
    by rewrite (bool_decide_eq_true_2 _ Hin).
  - intros PY37 name st Hr Hin Hl. unfold module_getattr.
    rewrite (bool_decide_eq_true_2 _ Hin). cbn [negb].
    destruct (negb (bool_decide (name ∈ table_names))); [done|].
    destruct (safety_reachable_inv _ _ _ Hr) as [(_ & -> & _)|(_ & Hl' & _)];
      [done|congruence].
Qed.

Lemma import_star_binds_every_name_witness :
  module_getattr true Samples.some_data "DIPPR_SERAT_data"
    (import_safety true Samples.some_data)
  = (Bound, safety_loaded Samples.some_data).
Proof.
  destruct (import_star_binds_every_name Samples.some_data) as (_ & _ & _ & H & _).
  apply H. apply (bool_decide_unpack _). by vm_compute.
Defined.

(** ** dipole.py *)

(** X14: dipole.py calls [_load_dipole_data] on import, when the interpreter
    is older than 3.7, before it binds the names [CCCBDB], [MULLER] and
    [POLING] that the load reads: that import raises [NameError]; on 3.7
    and later the import succeeds, with nothing loaded. *)
Theorem dipole_import_order files :
  import_dipole false files = NameError
  ∧ ∃ st, import_dipole true files = Returned st
          ∧ dipole_reachable files st
          ∧ dipole_names_bound st = true
          ∧ dipole_globals st = None
          ∧ dipole_loads st = 0.
Proof.
  split; [done|]. eexists. split; [reflexivity|]. split_and!; try done.
  by apply dreach_import.
Qed.

(** X15: [_load_dipole_data] never sets [_dipole_data_loaded], so the flag
    stays false and every call of [dipole_moment] runs the load again; the
    call never hits an unbound name, and returns what [dipole_moment]
    returns on the tables of the files. *)
Theorem dipole_tables_reloaded files st :
  dipole_reachable files st →
  _dipole_data_loaded st = false
  ∧ ∀ CASRN get_methods method,
      (call_dipole_moment files CASRN get_methods method st).1
        = Returned (dipole_moment files CASRN get_methods method)
      ∧ dipole_loads (call_dipole_moment files CASRN get_methods method st).2
        = S (dipole_loads st)
      ∧ _dipole_data_loaded (call_dipole_moment files CASRN get_methods method st).2
        = false.
Proof.
  intros Hr. destruct (dipole_reachable_inv _ _ Hr) as (Hn & Hl & _).
  split; [done|]. intros CASRN gm method.
  unfold call_dipole_moment, _load_dipole_data. rewrite Hl, Hn. by cbn.
Qed.

Lemma dipole_tables_reloaded_witness :
  ∃ st, import_dipole true Samples.ethanol_dipoles = Returned st
        ∧ (call_dipole_moment Samples.ethanol_dipoles "64-17-5" false PNone st).1
          = Returned (Ok (Value (PFloat 1.44)))
        ∧ dipole_loads
            (call_dipole_moment Samples.ethanol_dipoles "64-17-5" false PNone
               (call_dipole_moment Samples.ethanol_dipoles "64-17-5" true PNone st).2).2
          = 2.
Proof.
  eexists. split; [reflexivity|].
  match goal with |- (call_dipole_moment _ _ _ _ ?st).1 = _ ∧ _ =>
    assert (dipole_reachable Samples.ethanol_dipoles st) as Hr
      by (by apply dreach_import) end.
  split.
  - destruct (dipole_tables_reloaded _ _ Hr) as (_ & H).
    destruct (H "64-17-5" false PNone) as (-> & _). by vm_compute.
  - pose proof (dreach_call _ "64-17-5" true PNone _ Hr) as Hr'.
    destruct (dipole_tables_reloaded _ _ Hr') as (_ & H').
    destruct (H' "64-17-5" false PNone) as (_ & -> & _).
    destruct (dipole_tables_reloaded _ _ Hr) as (_ & H).
    destruct (H "64-17-5" true PNone) as (_ & -> & _). done.
Defined.

(** * Methods and lookups of the exposure limits *)

(** A limit resolves to a value exactly when its methods query lists the
    one method. *)
Lemma limit_listed_iff_value (ppm mgm3 : pyval) :
  (if truthy (py_or ppm mgm3) then [ONTARIO] else []) = [ONTARIO] ↔
  ∃ v u, (if truthy ppm then Ok (Some (ppm, "ppm"))
          else if truthy mgm3 then Ok (Some (mgm3, "mg/m^3"))
          else Ok None) = Ok (Some (v, u) : option (pyval * string)).
Proof.
  unfold py_or. destruct (truthy ppm) eqn:E1; [rewrite E1; split; eauto|].
  destruct (truthy mgm3); split; eauto; [done|by intros (? & ? & ?)].
Qed.

(** X16: every method that a methods query of the exposure limits lists is
    accepted by the lookup and gives a value there; and the lookup with the
    method 'Ontario Limits' gives a value only for a chemical whose methods
    query lists it. *)
Theorem listed_method_gives_a_value g CASRN :
  (∀ m, m ∈ TWA_methods g CASRN → ∃ v u, TWA g CASRN (PStr m) = Ok (Some (v, u)))
  ∧ (∀ m, m ∈ STEL_methods g CASRN → ∃ v u, STEL g CASRN (PStr m) = Ok (Some (v, u)))
  ∧ (∀ m, m ∈ Ceiling_methods g CASRN →
          ∃ v u, Ceiling g CASRN (PStr m) = Ok (Some (v, u)))
  ∧ (∀ m, m ∈ Skin_methods g CASRN → ∃ b, Skin g CASRN (PStr m) = Ok (Some b))
  ∧ ((∃ v u, TWA g CASRN (PStr ONTARIO) = Ok (Some (v, u))) →
     TWA_methods g CASRN = [ONTARIO])
  ∧ ((∃ v u, STEL g CASRN (PStr ONTARIO) = Ok (Some (v, u))) →
     STEL_methods g CASRN = [ONTARIO])
  ∧ ((∃ v u, Ceiling g CASRN (PStr ONTARIO) = Ok (Some (v, u))) →
     Ceiling_methods g CASRN = [ONTARIO])
  ∧ ((∃ b, Skin g CASRN (PStr ONTARIO) = Ok (Some b)) →
     Skin_methods g CASRN = [ONTARIO]).
Proof.
  assert (∀ (m : string) (l : list string),
            m ∈ l → l = [ONTARIO] ∨ l = [] → m = ONTARIO ∧ l = [ONTARIO]) as Hin.
  { intros m l Hm [-> | ->]; [|by apply elem_of_nil in Hm].
    by apply list_elem_of_singleton in Hm. }
  split_and!.
  - intros m Hm. unfold TWA_methods in Hm.
    destruct (dict_get (Ontario_exposure_limits_dict g) CASRN) as [data|] eqn:E;
      [|by apply elem_of_nil in Hm].
    apply Hin in Hm as [-> Hl]; [|destruct (truthy _); auto].
    unfold TWA. rewrite E. by apply limit_listed_iff_value.
  - intros m Hm. unfold STEL_methods in Hm.
    destruct (dict_get (Ontario_exposure_limits_dict g) CASRN) as [data|] eqn:E;
      [|by apply elem_of_nil in Hm].
    apply Hin in Hm as [-> Hl]; [|destruct (truthy _); auto].
    unfold STEL. rewrite E. by apply limit_listed_iff_value.
  - intros m Hm. unfold Ceiling_methods in Hm.
    destruct (dict_get (Ontario_exposure_limits_dict g) CASRN) as [data|] eqn:E;
      [|by apply elem_of_nil in Hm].
    apply Hin in Hm as [-> Hl]; [|destruct (truthy _); auto].
    unfold Ceiling. rewrite E. by apply limit_listed_iff_value.
  - intros m Hm. unfold Skin_methods in Hm.
    destruct (dict_get (Ontario_exposure_limits_dict g) CASRN) as [data|] eqn:E;
      [|by apply elem_of_nil in Hm].
    apply list_elem_of_singleton in Hm as ->. unfold Skin. rewrite E. cbn. eauto.
  - unfold TWA, TWA_methods.
    destruct (dict_get (Ontario_exposure_limits_dict g) CASRN) as [data|];
      [|by intros (? & ? & ?)].
    intros H. by apply limit_listed_iff_value.
  - unfold STEL, STEL_methods.
    destruct (dict_get (Ontario_exposure_limits_dict g) CASRN) as [data|];
      [|by intros (? & ? & ?)].
    intros H. by apply limit_listed_iff_value.
  - unfold Ceiling, Ceiling_methods.
    destruct (dict_get (Ontario_exposure_limits_dict g) CASRN) as [data|];
      [|by intros (? & ? & ?)].
    intros H. by apply limit_listed_iff_value.
  - unfold Skin, Skin_methods.
    destruct (dict_get (Ontario_exposure_limits_dict g) CASRN) as [data|];
      [done|by intros (? & ?)].
Qed.

Lemma listed_method_gives_a_value_witness :
  TWA_methods Samples.some_data "98-00-0" = ["Ontario Limits"]
  ∧ ∃ v u, TWA Samples.some_data "98-00-0" (PStr "Ontario Limits") = Ok (Some (v, u)).
Proof.
  assert (TWA_methods Samples.some_data "98-00-0" = ["Ontario Limits"]) as H
    by (by vm_compute).
  split; [exact H|].
  destruct (listed_method_gives_a_value Samples.some_data "98-00-0") as (Ht & _).
  apply Ht. rewrite H. by apply list_elem_of_singleton.
Defined.
